(** * AI UI Refactor: the completion client, the submit handler and the
      live-preview document, embedded from the TypeScript sources.

    Sources embedded here:
    - [services/geminiService]   ([getUIImprovementFromCode], the prompt template)
    - [components/InputForm]     ([handleSubmit] and the form state)
    - [components/OutputDisplay] ([iframeContent] and the script of its
      component template, [renderContent], the element with the tab bar)

    JavaScript strings are sequences of UTF-16 code units; they are modelled
    as lists of [N].  Values coming out of [JSON.parse] are dynamically typed
    and are modelled by the type [jsval]. *)

From Stdlib Require Import List NArith ZArith Bool String Ascii Lia.
Import ListNotations.

Local Open Scope N_scope.
Local Open Scope list_scope.

(* ================================================================== *)
(** ** JavaScript strings *)
(* ================================================================== *)

Module JsString.

(** A string is its sequence of UTF-16 code units. *)
Definition jsstring := list N.

(** An ASCII literal of the source as a JavaScript string. *)
Definition u16 (s : string) : jsstring :=
  List.map N_of_ascii (list_ascii_of_string s).

(** Code units that the sources mention by character. *)
Definition QUOTE : N := 34.      (* the double quote *)
Definition BACKSLASH : N := 92.
Definition LF : N := 10.
Definition LBRACE : N := 123.
Definition RBRACE : N := 125.
Definition LBRACKET : N := 91.
Definition RBRACKET : N := 93.
Definition COLON : N := 58.
Definition COMMA : N := 44.

(** ECMAScript [WhiteSpace] and [LineTerminator] code units: what
    [String.prototype.trim] strips. *)
Definition is_js_whitespace (c : N) : bool :=
  (c =? 9) || (c =? 10) || (c =? 11) || (c =? 12) || (c =? 13) || (c =? 32)
  || (c =? 160) || (c =? 5760)
  || ((8192 <=? c) && (c <=? 8202))
  || (c =? 8232) || (c =? 8233) || (c =? 8239) || (c =? 8287)
  || (c =? 12288) || (c =? 65279).

Fixpoint trimStart (s : jsstring) : jsstring :=
  match s with
  | [] => []
  | c :: r => if is_js_whitespace c then trimStart r else s
  end.

Definition trimEnd (s : jsstring) : jsstring := rev (trimStart (rev s)).

(** [s.trim()] *)
Definition trim (s : jsstring) : jsstring := trimEnd (trimStart s).

(** [s.startsWith(c)] and [s.endsWith(c)] for a one-unit search string. *)
Definition startsWith (c : N) (s : jsstring) : bool :=
  match s with
  | [] => false
  | d :: _ => d =? c
  end.

Definition endsWith (c : N) (s : jsstring) : bool := startsWith c (rev s).

Definition is_empty (s : jsstring) : bool :=
  match s with [] => true | _ :: _ => false end.

Fixpoint eqb (s t : jsstring) : bool :=
  match s, t with
  | [], [] => true
  | c :: s', d :: t' => (c =? d) && eqb s' t'
  | _, _ => false
  end.

(** [a || b] on strings: the empty string is the only falsy string. *)
Definition or_else (a b : jsstring) : jsstring :=
  if is_empty a then b else a.

(** Does [p] start [s]? *)
Fixpoint prefixb (p s : jsstring) : bool :=
  match p, s with
  | [], _ => true
  | c :: p', d :: s' => (c =? d) && prefixb p' s'
  | _ :: _, [] => false
  end.

(** Number of positions of [s] at which [needle] occurs. *)
Fixpoint occurrences (needle s : jsstring) : nat :=
  match s with
  | [] => if is_empty needle then 1%nat else 0%nat
  | _ :: r => ((if prefixb needle s then 1 else 0) + occurrences needle r)%nat
  end.

(** [s.includes(needle)] *)
Definition includes (needle s : jsstring) : bool :=
  negb (Nat.eqb (occurrences needle s) 0).

(** The lines of a template literal, joined by line feeds. *)
Fixpoint lines (ls : list jsstring) : jsstring :=
  match ls with
  | [] => []
  | [l] => l
  | l :: rest => l ++ LF :: lines rest
  end.

End JsString.
Import JsString.

(* ================================================================== *)
(** ** JavaScript values, as far as [JSON.parse] produces them *)
(* ================================================================== *)

Module JsValue.

#[local] Set Warnings "-register-all".

(** A JSON number literal [(-1)^negative * mantissa * 10^exp10].  The source
    never computes with numbers; only their truthiness can be observed. *)
Record number := mkNumber { negative : bool; mantissa : N; exp10 : Z }.

Inductive jsval :=
| VUndefined
| VNull
| VBool (b : bool)
| VNumber (n : number)
| VString (s : jsstring)
| VArray (items : list jsval)
| VObject (members : list (jsstring * jsval)).

(** The double nearest to a decimal is zero exactly when the decimal is at
    most half the least subnormal, [2^-1075]. *)
Definition number_is_zero (n : number) : bool :=
  (mantissa n =? 0)
  || ((exp10 n <? 0)%Z
      && (Z.of_N (mantissa n) * 2 ^ 1075 <=? 10 ^ (- exp10 n))%Z).

(** ToBoolean *)
Definition truthy (v : jsval) : bool :=
  match v with
  | VUndefined | VNull => false
  | VBool b => b
  | VNumber n => negb (number_is_zero n)
  | VString s => negb (is_empty s)
  | VArray _ | VObject _ => true
  end.

(** [v === 'literal'] for a string literal. *)
Definition strict_eq_string (v : jsval) (lit : jsstring) : bool :=
  match v with
  | VString s => JsString.eqb s lit
  | _ => false
  end.

(** Own-property lookup in the members of an object literal, in source
    order: a later duplicate key overrides an earlier one. *)
Fixpoint lookup (key : jsstring) (members : list (jsstring * jsval))
  : option jsval :=
  match members with
  | [] => None
  | (k, v) :: rest =>
      match lookup key rest with
      | Some w => Some w
      | None => if JsString.eqb k key then Some v else None
      end
  end.

End JsValue.
Import JsValue.

(* ================================================================== *)
(** ** [JSON.parse] *)
(* ================================================================== *)

Module Json.

(** JSON white space: tab, line feed, carriage return, space. *)
Definition is_json_ws (c : N) : bool :=
  (c =? 9) || (c =? 10) || (c =? 13) || (c =? 32).

Fixpoint skip_ws (s : jsstring) : jsstring :=
  match s with
  | [] => []
  | c :: r => if is_json_ws c then skip_ws r else s
  end.

Definition is_digit (c : N) : bool := (48 <=? c) && (c <=? 57).

Definition hex_value (c : N) : option N :=
  if is_digit c then Some (c - 48)
  else if (97 <=? c) && (c <=? 102) then Some (c - 87)
  else if (65 <=? c) && (c <=? 70) then Some (c - 55)
  else None.

(** The character denoted by a one-letter escape. *)
Definition simple_escape (c : N) : option N :=
  if c =? 34 then Some 34          (* quote *)
  else if c =? 92 then Some 92     (* backslash *)
  else if c =? 47 then Some 47     (* solidus *)
  else if c =? 98 then Some 8      (* backspace *)
  else if c =? 102 then Some 12    (* form feed *)
  else if c =? 110 then Some 10    (* line feed *)
  else if c =? 114 then Some 13    (* carriage return *)
  else if c =? 116 then Some 9     (* tab *)
  else None.

(** The characters of a string literal after its opening quote, up to and
    including the closing quote. *)
Fixpoint parse_string_body (s : jsstring) : option (jsstring * jsstring) :=
  match s with
  | [] => None
  | c :: r =>
      if c =? QUOTE then Some ([], r)
      else if c =? BACKSLASH then
        match r with
        | [] => None
        | e :: r1 =>
            if e =? 117 then                      (* u and four hex digits *)
              match r1 with
              | h1 :: h2 :: h3 :: h4 :: r2 =>
                  match hex_value h1, hex_value h2, hex_value h3, hex_value h4 with
                  | Some a, Some b, Some c', Some d =>
                      match parse_string_body r2 with
                      | Some (cs, rest) =>
                          Some (((a * 16 + b) * 16 + c') * 16 + d :: cs, rest)
                      | None => None
                      end
                  | _, _, _, _ => None
                  end
              | _ => None
              end
            else
              match simple_escape e with
              | Some x =>
                  match parse_string_body r1 with
                  | Some (cs, rest) => Some (x :: cs, rest)
                  | None => None
                  end
              | None => None
              end
        end
      else if c <? 32 then None
      else
        match parse_string_body r with
        | Some (cs, rest) => Some (c :: cs, rest)
        | None => None
        end
  end.

(** The longest run of decimal digits at the head of [s]. *)
Fixpoint span_digits (s : jsstring) : jsstring * jsstring :=
  match s with
  | [] => ([], [])
  | c :: r =>
      if is_digit c then let (ds, rest) := span_digits r in (c :: ds, rest)
      else ([], s)
  end.

Definition digits_value (ds : jsstring) : N :=
  fold_left (fun acc d => acc * 10 + (d - 48)) ds 0.

(** int: [0] or a non-zero digit followed by digits. *)
Definition parse_int (s : jsstring) : option (jsstring * jsstring) :=
  match s with
  | [] => None
  | c :: r =>
      if c =? 48 then Some ([c], r)
      else if is_digit c then let (ds, rest) := span_digits r in Some (c :: ds, rest)
      else None
  end.

(** frac: nothing, or [.] and at least one digit. *)
Definition parse_frac (s : jsstring) : option (jsstring * jsstring) :=
  match s with
  | c :: r =>
      if c =? 46 then
        let (ds, rest) := span_digits r in
        if is_empty ds then None else Some (ds, rest)
      else Some ([], s)
  | [] => Some ([], s)
  end.

(** exp: nothing, or [e]/[E], an optional sign and at least one digit. *)
Definition parse_exp (s : jsstring) : option (Z * jsstring) :=
  match s with
  | c :: r =>
      if (c =? 101) || (c =? 69) then
        let (neg, r1) :=
          match r with
          | sg :: r' =>
              if sg =? 45 then (true, r')
              else if sg =? 43 then (false, r')
              else (false, r)
          | [] => (false, r)
          end in
        let (ds, rest) := span_digits r1 in
        if is_empty ds then None
        else
          let e := Z.of_N (digits_value ds) in
          Some (if neg then (- e)%Z else e, rest)
      else Some (0%Z, s)
  | [] => Some (0%Z, s)
  end.

Definition parse_number (s : jsstring) : option (number * jsstring) :=
  let (neg, s1) :=
    match s with
    | c :: r => if c =? 45 then (true, r) else (false, s)
    | [] => (false, s)
    end in
  match parse_int s1 with
  | None => None
  | Some (ids, s2) =>
      match parse_frac s2 with
      | None => None
      | Some (fds, s3) =>
          match parse_exp s3 with
          | None => None
          | Some (e, rest) =>
              Some (mkNumber neg (digits_value (ids ++ fds))
                             (e - Z.of_nat (List.length fds))%Z,
                    rest)
          end
      end
  end.

(** Result of a parsing function run with bounded recursion depth. *)
Inductive presult (A : Type) :=
| OutOfFuel
| SyntaxErr
| Parsed (a : A) (rest : jsstring).
Arguments OutOfFuel {A}.
Arguments SyntaxErr {A}.
Arguments Parsed {A} a rest.

Definition pbind {A B} (p : presult A) (k : A -> jsstring -> presult B)
  : presult B :=
  match p with
  | OutOfFuel => OutOfFuel
  | SyntaxErr => SyntaxErr
  | Parsed a rest => k a rest
  end.

Definition of_option {A} (o : option (A * jsstring)) : presult A :=
  match o with
  | Some (a, rest) => Parsed a rest
  | None => SyntaxErr
  end.

(** Consume the one code unit [c] after optional white space. *)
Definition expect (c : N) (s : jsstring) : presult unit :=
  match skip_ws s with
  | d :: r => if d =? c then Parsed tt r else SyntaxErr
  | [] => SyntaxErr
  end.

Definition keyword (kw : string) (v : jsval) (s : jsstring) : presult jsval :=
  if prefixb (u16 kw) s then Parsed v (skipn (String.length kw) s)
  else SyntaxErr.

(** value, after optional white space.  [parse_elements] reads what follows
    the first element of an array up to its closing bracket, and
    [parse_members] reads the members of a non-empty object up to its
    closing brace. *)
Fixpoint parse_value (fuel : nat) (s : jsstring) {struct fuel}
  : presult jsval :=
  match fuel with
  | O => OutOfFuel
  | S fuel =>
      match skip_ws s with
      | [] => SyntaxErr
      | c :: r =>
          if c =? LBRACE then
            match skip_ws r with
            | d :: r' =>
                if d =? RBRACE then Parsed (VObject []) r'
                else pbind (parse_members fuel r)
                           (fun ms rest => Parsed (VObject ms) rest)
            | [] => SyntaxErr
            end
          else if c =? LBRACKET then
            match skip_ws r with
            | d :: r' =>
                if d =? RBRACKET then Parsed (VArray []) r'
                else
                  pbind (parse_value fuel r) (fun v r1 =>
                  pbind (parse_elements fuel r1) (fun vs rest =>
                  Parsed (VArray (v :: vs)) rest))
            | [] => SyntaxErr
            end
          else if c =? QUOTE then
            pbind (of_option (parse_string_body r))
                  (fun str rest => Parsed (VString str) rest)
          else if (c =? 45) || is_digit c then
            pbind (of_option (parse_number (c :: r)))
                  (fun n rest => Parsed (VNumber n) rest)
          else if c =? 116 then keyword "true" (VBool true) (c :: r)
          else if c =? 102 then keyword "false" (VBool false) (c :: r)
          else if c =? 110 then keyword "null" VNull (c :: r)
          else SyntaxErr
      end
  end

with parse_elements (fuel : nat) (s : jsstring) {struct fuel}
  : presult (list jsval) :=
  match fuel with
  | O => OutOfFuel
  | S fuel =>
      match skip_ws s with
      | [] => SyntaxErr
      | c :: r =>
          if c =? RBRACKET then Parsed [] r
          else if c =? COMMA then
            pbind (parse_value fuel r) (fun v r1 =>
            pbind (parse_elements fuel r1) (fun vs rest =>
            Parsed (v :: vs) rest))
          else SyntaxErr
      end
  end

with parse_members (fuel : nat) (s : jsstring) {struct fuel}
  : presult (list (jsstring * jsval)) :=
  match fuel with
  | O => OutOfFuel
  | S fuel =>
      pbind (expect QUOTE s) (fun _ r =>
      pbind (of_option (parse_string_body r)) (fun key r1 =>
      pbind (expect COLON r1) (fun _ r2 =>
      pbind (parse_value fuel r2) (fun v r3 =>
      match skip_ws r3 with
      | [] => SyntaxErr
      | c :: r4 =>
          if c =? RBRACE then Parsed [(key, v)] r4
          else if c =? COMMA then
            pbind (parse_members fuel r4) (fun ms rest =>
            Parsed ((key, v) :: ms) rest)
          else SyntaxErr
      end))))
  end.

(** [rest] is what is left of [s] behind a non-empty prefix. *)
Definition proper_suffix (rest s : jsstring) : Prop :=
  exists pre, pre <> [] /\ s = pre ++ rest.

(** [rest] is what is left of [s] behind a prefix that ends with [c]. *)
Definition suffix_after (c : N) (rest s : jsstring) : Prop :=
  exists mid, s = mid ++ c :: rest.

(** [JSON.parse(text)]: one value between optional white space; [None] is
    the [SyntaxError] it throws.  The recursion depth of the grammar on
    [text] never exceeds its length. *)
Definition JSON_parse (text : jsstring) : option jsval :=
  match parse_value (S (List.length text)) text with
  | Parsed v rest => if is_empty (skip_ws rest) then Some v else None
  | _ => None
  end.

End Json.
Import Json.

(* ================================================================== *)
(** ** services/geminiService *)
(* ================================================================== *)

Module Service.

(** Errors the engine raises by itself; their message text is the
    engine's. *)
Inductive engine_error :=
| JsonSyntaxError (text : jsstring)     (* JSON.parse rejected [text] *)
| NullPropertyRead (key : jsstring).    (* [x.key] with [x] null or undefined *)

(** Values that the modelled code throws or is rejected with. *)
Inductive thrown :=
| Error (message : jsstring)            (* [new Error(message)] *)
| Raised (e : engine_error)
| Rejected (reason : jsstring).         (* rejection of [generateContent] *)

(** How the generative backend settles one [generateContent] call. *)
Inductive reply :=
| Resolves (text : jsstring)            (* [response.text], a string *)
| Rejects (reason : jsstring).

Inductive logged :=
| LogString (s : jsstring)
| LogThrown (t : thrown).

(** Observable effects, in program order. *)
Inductive event :=
| GenerateContent (model contents : jsstring)
| ConsoleError (label : jsstring) (detail : logged).

(** Computations that log events and may throw. *)
Definition Exec (A : Type) : Type := (list event * (thrown + A))%type.

Definition ret {A} (a : A) : Exec A := ([], inr a).

Definition throw {A} (t : thrown) : Exec A := ([], inl t).

Definition bind {A B} (m : Exec A) (k : A -> Exec B) : Exec B :=
  match m with
  | (log, inl t) => (log, inl t)
  | (log, inr a) => let (log', r) := k a in (log ++ log', r)
  end.

Definition try_catch {A} (body : Exec A) (handler : thrown -> Exec A)
  : Exec A :=
  match body with
  | (log, inl t) => let (log', r) := handler t in (log ++ log', r)
  | (log, inr a) => (log, inr a)
  end.

Definition emit (e : event) : Exec unit := ([e], inr tt).

Notation "x <- m ;; k" := (bind m (fun x => k))
  (at level 61, m at next level, right associativity).
Notation "m ;;; k" := (bind m (fun _ => k))
  (at level 61, right associativity).

(** [v.key] for the keys read by the sources ([language], [improvedCode],
    [explanation], [dependencies]), none of which a built-in prototype
    defines. *)
Definition get_property (v : jsval) (key : jsstring) : Exec jsval :=
  match v with
  | VUndefined | VNull => throw (Raised (NullPropertyRead key))
  | VObject members =>
      ret (match lookup key members with Some w => w | None => VUndefined end)
  | _ => ret VUndefined
  end.

(** [result.language] for an object with the given members. *)
Definition language_of (members : list (jsstring * jsval)) : jsval :=
  match lookup (u16 "language") members with
  | Some w => w
  | None => VUndefined
  end.

Definition JSON_parse_exec (text : jsstring) : Exec jsval :=
  match JSON_parse text with
  | Some v => ret v
  | None => throw (Raised (JsonSyntaxError text))
  end.

Definition MODEL : jsstring := u16 "gemini-2.5-flash".

(** [improvementSchema.required] *)
Definition improvementSchema_required : list jsstring :=
  [u16 "language"; u16 "improvedCode"; u16 "explanation"; u16 "dependencies"].

Definition NO_REQUEST : jsstring :=
  u16 "No specific request provided. Focus on general UI/UX improvements.".
Definition NO_STYLE : jsstring :=
  u16 "No specific style provided. Use your best judgment for a modern, clean design.".

Definition INVALID_LANGUAGE : jsstring :=
  u16 "AI returned an invalid language type.".
Definition INVALID_RESPONSE : jsstring :=
  u16 "Received an invalid response from the AI. It might have been too complex to process.".
Definition FAILED : jsstring :=
  u16 "Failed to get UI improvement from code. The AI may have been unable to process the request.".

(** The template literal [fullPrompt], line by line. *)
Definition fullPrompt (userCode refactorPrompt stylePrompt : jsstring)
  : jsstring :=
  lines [
    [];
    u16 "      The user has provided a frontend component. Your task is to identify its language, refactor it based on their requests, and follow all rules in the system instruction.";
    [];
    u16 "      **User's Original Code:**";
    u16 "      ```";
    u16 "      " ++ userCode;
    u16 "      ```";
    [];
    u16 "      ---";
    [];
    u16 "      **User's Refactor Request:** ";
    u16 "      " ++ [QUOTE] ++ or_else refactorPrompt NO_REQUEST ++ [QUOTE];
    [];
    u16 "      **User's Target Style:**";
    u16 "      " ++ [QUOTE] ++ or_else stylePrompt NO_STYLE ++ [QUOTE];
    [];
    u16 "      ---";
    [];
    u16 "      Based on all of the above, please identify the language, rewrite the code, provide an explanation for your changes, and list any required dependencies.";
    u16 "    "
  ].

Section Client.

(** The backend, as the reply it gives to the contents of a request; the
    model name and the generation config are constants of the call. *)
Variable backend : jsstring -> reply.

(** [await ai.models.generateContent({...})], then [response.text] *)
Definition generateContent (contents : jsstring) : Exec jsstring :=
  emit (GenerateContent MODEL contents) ;;;
  match backend contents with
  | Resolves text => ret text
  | Rejects reason => throw (Rejected reason)
  end.

Definition getUIImprovementFromCode
    (userCode refactorPrompt stylePrompt : jsstring) : Exec jsval :=
  try_catch
    (let prompt := fullPrompt userCode refactorPrompt stylePrompt in
     text <- generateContent prompt ;;
     let jsonStr := trim text in
     if startsWith LBRACE jsonStr && endsWith RBRACE jsonStr then
       result <- JSON_parse_exec jsonStr ;;
       language <- get_property result (u16 "language") ;;
       if negb (strict_eq_string language (u16 "tsx"))
          && negb (strict_eq_string language (u16 "html"))
       then throw (Error INVALID_LANGUAGE)
       else ret result
     else
       emit (ConsoleError (u16 "Received non-JSON response:") (LogString jsonStr)) ;;;
       throw (Error INVALID_RESPONSE))
    (fun error =>
       emit (ConsoleError (u16 "Error generating code improvement:") (LogThrown error)) ;;;
       throw (Error FAILED)).

End Client.

End Service.
Import Service.

(* ================================================================== *)
(** ** components/OutputDisplay *)
(* ================================================================== *)

Module Output.

Inductive Theme := Light | Dark.

Definition htmlClass (theme : Theme) : jsstring :=
  match theme with
  | Dark => u16 "class=" ++ [QUOTE] ++ u16 "dark" ++ [QUOTE]
  | Light => []
  end.

Definition bodyBg (theme : Theme) : jsstring :=
  match theme with Dark => u16 "#0f172a" | Light => u16 "#ffffff" end.

Definition textColor (theme : Theme) : jsstring :=
  match theme with Dark => u16 "#cbd5e1" | Light => u16 "#334155" end.

(** The two string literals that the preview script assigns to the root
    node's [innerHTML]. *)
Definition NOT_FOUND_HTML : jsstring :=
  u16 "<div style=" ++ [QUOTE]
  ++ u16 "color: #f97316; font-family: monospace; padding: 1rem;" ++ [QUOTE]
  ++ u16 ">Error: RefactoredComponent function not found in the generated code.</div>".

Definition SCRIPT_ERROR_OPEN : jsstring :=
  u16 "<div style=" ++ [QUOTE]
  ++ u16 "color: #ef4444; font-family: monospace; padding: 1rem;" ++ [QUOTE]
  ++ u16 "><strong>Script Error:</strong><br/>".

Definition SCRIPT_ERROR_CLOSE : jsstring := u16 "</div>".


(** The template literal returned for [language === 'tsx']. *)
Definition tsx_document (code : jsstring) (theme : Theme) : list jsstring :=
  [ [];
    u16 "                <html " ++ htmlClass theme ++ u16 ">";
    u16 "                    <head>";
    u16 "                        <script src=" ++ [QUOTE] ++ u16 "https://cdn.tailwindcss.com" ++ [QUOTE] ++ u16 "></script>";
    u16 "                        <script>";
    u16 "                            tailwind.config = { darkMode: 'class' }";
    u16 "                        </script>";
    u16 "                        <script src=" ++ [QUOTE] ++ u16 "https://unpkg.com/react@18/umd/react.development.js" ++ [QUOTE] ++ u16 "></script>";
    u16 "                        <script src=" ++ [QUOTE] ++ u16 "https://unpkg.com/react-dom@18/umd/react-dom.development.js" ++ [QUOTE] ++ u16 "></script>";
    u16 "                        <script src=" ++ [QUOTE] ++ u16 "https://unpkg.com/@babel/standalone/babel.min.js" ++ [QUOTE] ++ u16 "></script>";
    u16 "                        <style>";
    u16 "                            body { ";
    u16 "                                margin: 0; ";
    u16 "                                display: flex; ";
    u16 "                                justify-content: center; ";
    u16 "                                align-items: center; ";
    u16 "                                min-height: 100vh; ";
    u16 "                                background-color: " ++ bodyBg theme ++ u16 "; ";
    u16 "                                color: " ++ textColor theme ++ u16 ";";
    u16 "                                padding: 1rem; ";
    u16 "                                font-family: sans-serif;";
    u16 "                            }";
    u16 "                        </style>";
    u16 "                    </head>";
    u16 "                    <body>";
    u16 "                        <div id=" ++ [QUOTE] ++ u16 "root" ++ [QUOTE] ++ u16 "></div>";
    u16 "                        <script type=" ++ [QUOTE] ++ u16 "text/babel" ++ [QUOTE] ++ u16 ">";
    u16 "                            try {";
    u16 "                                " ++ code;
    u16 "                                if (typeof RefactoredComponent !== 'undefined') {";
    u16 "                                    const container = document.getElementById('root');";
    u16 "                                    const root = ReactDOM.createRoot(container);";
    u16 "                                    root.render(<RefactoredComponent />);";
    u16 "                                } else {";
    u16 "                                     document.getElementById('root').innerHTML = '" ++ NOT_FOUND_HTML ++ u16 "';";
    u16 "                                }";
    u16 "                            } catch(e) {";
    u16 "                                document.getElementById('root').innerHTML = '" ++ SCRIPT_ERROR_OPEN ++ u16 "' + e.message + '" ++ SCRIPT_ERROR_CLOSE ++ u16 "';";
    u16 "                            }";
    u16 "                        </script>";
    u16 "                    </body>";
    u16 "                </html>";
    u16 "            "
  ].

(** The template literal returned otherwise. *)
Definition html_document (code : jsstring) (theme : Theme) : list jsstring :=
  [ [];
    u16 "                <html " ++ htmlClass theme ++ u16 ">";
    u16 "                    <head>";
    u16 "                        <script src=" ++ [QUOTE] ++ u16 "https://cdn.tailwindcss.com" ++ [QUOTE] ++ u16 "></script>";
    u16 "                         <script>";
    u16 "                            tailwind.config = { darkMode: 'class' }";
    u16 "                        </script>";
    u16 "                        <style>";
    u16 "                           body { ";
    u16 "                                padding: 1rem; ";
    u16 "                                background-color: " ++ bodyBg theme ++ u16 "; ";
    u16 "                                color: " ++ textColor theme ++ u16 ";";
    u16 "                                font-family: sans-serif;";
    u16 "                            }";
    u16 "                        </style>";
    u16 "                    </head>";
    u16 "                    <body>";
    u16 "                        " ++ code;
    u16 "                    </body>";
    u16 "                </html>";
    u16 "            "
  ].

(** [iframeContent], the [srcDoc] of the sandboxed frame. *)
Definition iframeContent (code : jsstring) (language : jsval) (theme : Theme)
  : jsstring :=
  if strict_eq_string language (u16 "tsx")
  then lines (tsx_document code theme)
  else lines (html_document code theme).

(** The [srcDoc] that [LivePreview] gives its frame when its [code] prop
    is a string (template interpolation leaves a string as it is). *)
Definition LivePreview_srcDoc (code language : jsval) (theme : Theme)
  : option jsstring :=
  match code with
  | VString text => Some (iframeContent text language theme)
  | _ => None
  end.


(** *** [OutputDisplay] *)

Inductive Tab := TabPreview | TabCode | TabExplanation | TabDependencies.

(** What [renderContent] returns. *)
Inductive content :=
| LoadingSkeleton
| ErrorPanel (message : jsstring)
| ReadyToRefactor
| LivePreview (code language : jsval) (theme : Theme)
| CodeBlock (code language : jsval) (theme : Theme)
| MarkdownRenderer (text : jsval)
| DependenciesView (dependencies : jsval).

(** Truthiness of [error : string | null]. *)
Definition error_set (error : option jsstring) : bool :=
  match error with
  | Some message => negb (is_empty message)
  | None => false
  end.

Definition renderContent
    (improvedCode explanation language dependencies : jsval)
    (isLoading : bool) (error : option jsstring) (theme : Theme)
    (activeTab : Tab) : content :=
  if isLoading then LoadingSkeleton
  else if error_set error then
    ErrorPanel (match error with Some message => message | None => [] end)
  else if negb (truthy improvedCode) then ReadyToRefactor
  else
    match activeTab with
    | TabPreview => LivePreview improvedCode language theme
    | TabCode => CodeBlock improvedCode language theme
    | TabExplanation => MarkdownRenderer explanation
    | TabDependencies => DependenciesView dependencies
    end.

(** The tab bar is rendered under [improvedCode && !error && !isLoading]. *)
Definition tab_bar_shown (improvedCode : jsval) (isLoading : bool)
    (error : option jsstring) : bool :=
  truthy improvedCode && negb (error_set error) && negb isLoading.

End Output.
Import Output.

(* ================================================================== *)
(** ** The script block of the component document *)
(* ================================================================== *)

Module PreviewScript.

(** The [text/babel] script of the 'tsx' template as a syntax tree that
    keeps the indentation of every line, with the statement forms that
    occur in it; [print] gives back its text.  The interpolated code is
    one node, taken as a sequence of complete statements. *)


Inductive expr :=
| Str (s : jsstring)                    (* a single-quoted literal *)
| CaughtMessage                         (* [e.message] *)
| Concat (a b : expr).                  (* [a + b] *)

#[warnings="-register-all"] Inductive stmt :=
| Source (indent : nat) (code : jsstring)
| ConstContainer (indent : nat)
    (* const container = document.getElementById('root'); *)
| ConstRoot (indent : nat)
    (* const root = ReactDOM.createRoot(container); *)
| RenderComponent (indent : nat) (name : jsstring)
    (* root.render(<name />); *)
| SetRootInnerHTML (indent : nat) (html : expr)
    (* document.getElementById('root').innerHTML = html; *)
| IfDefined (indent : nat) (name : jsstring) (yes no : list stmt)
    (* if (typeof name !== 'undefined') { yes } else { no } *)
| TryCatch (indent : nat) (body handler : list stmt).
    (* try { body } catch(e) { handler } *)





(** *** Running the script in the frame

    What the text does not determine is given by an oracle: whether the
    source transformer accepts the text of the script element and, if it
    does, the statements it reads; what running the interpolated
    statements does; and what the component runtime does. *)

Inductive source_outcome :=
| SourceThrows (message : jsstring)
| SourceDefines (names : list jsstring).
    (* completes; the names it leaves bound to a value other than
       [undefined] *)

Inductive runtime_outcome :=
| RuntimeThrows (message : jsstring)
    (* [ReactDOM.createRoot] throws inside the block, as it does when the
       runtime was not loaded *)
| RendersFine
| RenderFailsLater (message : jsstring).
    (* the component throws while the runtime renders it, after the block
       has returned; the runtime then removes what it rendered *)

Record oracle := mkOracle {
  transform : jsstring -> option stmt;
  run_source : jsstring -> source_outcome;
  runtime : runtime_outcome
}.

(** Content of the element with id [root]. *)
Inductive root_node :=
| Empty
| Rendered (component : jsstring)
| InnerHTML (html : jsstring).

Inductive completion :=
| Normal
| Throw (message : jsstring).

Record env := mkEnv {
  defined : list jsstring;
  node : root_node
}.

Definition is_defined (name : jsstring) (e : env) : bool :=
  existsb (JsString.eqb name) (defined e).

Fixpoint eval_expr (caught : jsstring) (x : expr) : jsstring :=
  match x with
  | Str s => s
  | CaughtMessage => caught
  | Concat a b => eval_expr caught a ++ eval_expr caught b
  end.

(** Statements in sequence, up to the first that throws. *)
Definition exec_block (exec : stmt -> env -> env * completion)
  : list stmt -> env -> env * completion :=
  fix go (block : list stmt) (e : env) : env * completion :=
    match block with
    | [] => (e, Normal)
    | s :: rest =>
        match exec s e with
        | (e', Normal) => go rest e'
        | (e', Throw message) => (e', Throw message)
        end
    end.

(** [caught] is the message of the error bound by the enclosing [catch]
    (empty outside a handler). *)
Fixpoint exec (o : oracle) (caught : jsstring) (s : stmt) (e : env)
  : env * completion :=
  match s with
  | Source _ code =>
      match run_source o code with
      | SourceThrows message => (e, Throw message)
      | SourceDefines names => (mkEnv (names ++ defined e) (node e), Normal)
      end
  | ConstContainer _ => (e, Normal)
  | ConstRoot _ =>
      match runtime o with
      | RuntimeThrows message => (e, Throw message)
      | _ => (e, Normal)
      end
  | RenderComponent _ name => (mkEnv (defined e) (Rendered name), Normal)
  | SetRootInnerHTML _ html =>
      (mkEnv (defined e) (InnerHTML (eval_expr caught html)), Normal)
  | IfDefined _ name yes no =>
      if is_defined name e then exec_block (exec o caught) yes e
      else exec_block (exec o caught) no e
  | TryCatch _ body handler =>
      match exec_block (exec o caught) body e with
      | (e', Normal) => (e', Normal)
      | (e', Throw message) => exec_block (exec o message) handler e'
      end
  end.




End PreviewScript.
Import PreviewScript.

(* ================================================================== *)
(** ** components/InputForm *)
(* ================================================================== *)

Module Form.

(** The [useState] cells of [InputForm].  The three inputs are strings
    typed by the user; the four result cells hold whatever the parsed reply
    carried under the corresponding key. *)
Record State := mkState {
  userCode : jsstring;
  refactorPrompt : jsstring;
  stylePrompt : jsstring;
  improvedCode : jsval;
  explanation : jsval;
  language : jsval;
  dependencies : jsval;
  isLoading : bool;
  error : option jsstring
}.

(** The initial values given to [useState]. *)
Definition initial : State :=
  {| userCode := []; refactorPrompt := []; stylePrompt := [];
     improvedCode := VString []; explanation := VString [];
     language := VString (u16 "tsx"); dependencies := VArray [];
     isLoading := false; error := None |}.

Definition setUserCode (v : jsstring) (st : State) : State :=
  mkState v (refactorPrompt st) (stylePrompt st) (improvedCode st)
          (explanation st) (language st) (dependencies st) (isLoading st)
          (error st).

Definition setImprovedCode (v : jsval) (st : State) : State :=
  mkState (userCode st) (refactorPrompt st) (stylePrompt st) v
          (explanation st) (language st) (dependencies st) (isLoading st)
          (error st).

Definition setExplanation (v : jsval) (st : State) : State :=
  mkState (userCode st) (refactorPrompt st) (stylePrompt st) (improvedCode st)
          v (language st) (dependencies st) (isLoading st) (error st).

Definition setLanguage (v : jsval) (st : State) : State :=
  mkState (userCode st) (refactorPrompt st) (stylePrompt st) (improvedCode st)
          (explanation st) v (dependencies st) (isLoading st) (error st).

Definition setDependencies (v : jsval) (st : State) : State :=
  mkState (userCode st) (refactorPrompt st) (stylePrompt st) (improvedCode st)
          (explanation st) (language st) v (isLoading st) (error st).

Definition setIsLoading (v : bool) (st : State) : State :=
  mkState (userCode st) (refactorPrompt st) (stylePrompt st) (improvedCode st)
          (explanation st) (language st) (dependencies st) v (error st).

Definition setError (v : option jsstring) (st : State) : State :=
  mkState (userCode st) (refactorPrompt st) (stylePrompt st) (improvedCode st)
          (explanation st) (language st) (dependencies st) (isLoading st) v.

Definition EMPTY_CODE : jsstring :=
  u16 "Please provide some component code to refactor.".
Definition UNEXPECTED : jsstring := u16 "An unexpected error occurred.".

(** The submit button carries [disabled={!userCode || isLoading}]. *)
Definition submit_disabled (st : State) : bool :=
  is_empty (userCode st) || isLoading st.

(** What [renderContent()] returns for the props that the form hands to
    [OutputDisplay]: the content area below the tab bar.  The whole
    element, with the tab bar and what evaluating it reads, is
    [Pane.render_form]. *)
Definition output (st : State) (theme : Theme) (activeTab : Tab) : content :=
  renderContent (improvedCode st) (explanation st) (language st)
                (dependencies st) (isLoading st) (error st) theme activeTab.

(** What one call of [handleSubmit] does: the form state at the end of each
    of its synchronous stretches (up to the [await], and after it), and the
    events of the call it awaits. *)
Record run := mkRun {
  committed : list State;
  events : list event
}.

Section Handler.

Variable backend : jsstring -> reply.

(** The message text of the errors the engine raises by itself. *)
Variable engine_message : engine_error -> jsstring.

(** [e.message] *)
Definition message_of (e : thrown) : jsstring :=
  match e with
  | Error message => message
  | Raised err => engine_message err
  | Rejected reason => reason
  end.

(** [handleSubmit] up to its [await]: [inl] when the guard returned. *)
Definition handleSubmit_enter (st : State) : State + State :=
  if is_empty (trim (userCode st)) then
    inl (setError (Some EMPTY_CODE) st)
  else
    inr (setDependencies (VArray [])
        (setExplanation (VString [])
        (setImprovedCode (VString [])
        (setError None
        (setIsLoading true st))))).

(** The destructuring assignment and the four setters of the [try] block. *)
Definition store_result (result : jsval) (st : State) : Exec State :=
  newCode <- get_property result (u16 "improvedCode") ;;
  newExplanation <- get_property result (u16 "explanation") ;;
  newLang <- get_property result (u16 "language") ;;
  newDeps <- get_property result (u16 "dependencies") ;;
  ret (setDependencies newDeps
      (setLanguage newLang
      (setExplanation newExplanation
      (setImprovedCode newCode st)))).

(** [handleSubmit] after its [await]: the rest of [try], or [catch], and
    then [finally]. *)
Definition handleSubmit_resume (settled : thrown + jsval) (st : State)
  : State :=
  let on_catch e := setError (Some (or_else (message_of e) UNEXPECTED)) st in
  setIsLoading false
    match settled with
    | inr result =>
        match snd (store_result result st) with
        | inr st' => st'
        | inl e => on_catch e
        end
    | inl e => on_catch e
    end.

Definition handleSubmit (st : State) : run :=
  match handleSubmit_enter st with
  | inl st1 => mkRun [st1] []
  | inr st1 =>
      let (log, settled) :=
        getUIImprovementFromCode backend
          (userCode st) (refactorPrompt st) (stylePrompt st) in
      mkRun [st1; handleSubmit_resume settled st1] log
  end.

End Handler.

(** The state in which a run leaves the form. *)
Definition final (st : State) (r : run) : State := last (committed r) st.

(** *** The request life cycle read off the form state

    [OutputDisplay] distinguishes four situations, in this order: loading,
    error, no result yet, result. *)
Inductive RequestState :=
| Idle
| Pending
| Succeeded (rewrittenCode explanation detectedLanguage dependencies : jsval)
| Failed (message : jsstring).

Definition requestState (st : State) : RequestState :=
  if isLoading st then Pending
  else if error_set (error st) then
    Failed (match error st with Some message => message | None => [] end)
  else if negb (truthy (improvedCode st)) then Idle
  else Succeeded (improvedCode st) (explanation st) (language st)
                 (dependencies st).

Definition is_pending (st : State) : bool := isLoading st.

(** Number of entries into Pending along a sequence of states that starts
    from [prev]. *)
Fixpoint entries_to_pending (prev : State) (states : list State) : nat :=
  match states with
  | [] => 0%nat
  | st :: rest =>
      ((if negb (is_pending prev) && is_pending st then 1 else 0)
       + entries_to_pending st rest)%nat
  end.

Definition is_network_call (e : event) : bool :=
  match e with
  | GenerateContent _ _ => true
  | ConsoleError _ _ => false
  end.

Definition network_calls (r : run) : nat :=
  List.length (filter is_network_call (events r)).

End Form.
Import Form.

(* ================================================================== *)
(** ** components/OutputDisplay: the element it returns *)
(* ================================================================== *)

Module Pane.

(** The tab bar, when rendered, with the [hasIndicator] prop of its
    Dependencies button; and the content area. *)
Record view := mkView {
  tab_bar : option bool;
  body : content
}.

Section Render.

(** [v > 0] for a value [v] that is a string, an array or an object.  The
    comparison turns such a value into a number through its string form;
    that conversion is left open. *)
Variable coerced_gt_zero : jsval -> bool.

(** [v > 0] *)
Definition gt_zero (v : jsval) : bool :=
  match v with
  | VUndefined => false
  | VNull => false
  | VBool b => b
  | VNumber n => negb (negative n) && negb (number_is_zero n)
  | _ => coerced_gt_zero v
  end.

(** [dependencies.length > 0] *)
Definition indicator (dependencies : jsval) : thrown + bool :=
  match dependencies with
  | VUndefined | VNull => inl (Raised (NullPropertyRead (u16 "length")))
  | VBool _ | VNumber _ => inr false
  | VString s => inr (negb (is_empty s))
  | VArray items => inr (negb (Nat.eqb (List.length items) 0))
  | VObject members =>
      inr (gt_zero (match lookup (u16 "length") members with
                    | Some w => w
                    | None => VUndefined
                    end))
  end.

(** The element returned by [OutputDisplay]: the tab bar is evaluated
    first, under [improvedCode && !error && !isLoading], then
    [renderContent()]. *)
Definition render
    (improvedCode explanation language dependencies : jsval)
    (isLoading : bool) (error : option jsstring) (theme : Theme)
    (activeTab : Tab) : thrown + view :=
  let content :=
    renderContent improvedCode explanation language dependencies
                  isLoading error theme activeTab in
  if tab_bar_shown improvedCode isLoading error then
    match indicator dependencies with
    | inl t => inl t
    | inr dot => inr (mkView (Some dot) content)
    end
  else inr (mkView None content).


End Render.

End Pane.

(* ================================================================== *)
(** ** components/InputForm: the submit button *)
(* ================================================================== *)

Module Button.

Section Click.

Variable backend : jsstring -> reply.
Variable engine_message : engine_error -> jsstring.

(** The button has [onClick={handleSubmit}] and
    [disabled={!userCode || isLoading}]; a disabled button dispatches no
    click.  [None] is a click that runs nothing. *)
Definition click (st : State) : option run :=
  if submit_disabled st then None
  else Some (handleSubmit backend engine_message st).

End Click.

End Button.
Import Button.

(* ================================================================== *)
(** ** components/output/DependenciesView *)
(* ================================================================== *)

Module Dependencies.

Definition NO_DEPENDENCIES : jsstring := u16 "No new dependencies required.".

(** What the component renders: the notice paragraph, or the command block
    with its copy button. *)
Inductive panel :=
| Notice (text : jsstring)
| Commands (text : jsstring).

(** The [dependencies] prop is an array of strings; [None] stands for
    [null] or [undefined].  [dependencies.join('\n')] is [lines]. *)
Definition DependenciesView (dependencies : option (list jsstring)) : panel :=
  match dependencies with
  | None => Notice NO_DEPENDENCIES
  | Some [] => Notice NO_DEPENDENCIES
  | Some deps => Commands (lines deps)
  end.

(** [handleCopy]: the text written to the clipboard, the [copied] flag, and
    the delay after which the timer clears the flag. *)
Record copy_effect := mkCopy {
  clipboard : jsstring;
  copied : bool;
  reset_after_ms : N
}.

Definition handleCopy (dependencies : list jsstring) : copy_effect :=
  mkCopy (lines dependencies) true 2000.

(** [hasIndicator={dependencies.length > 0}] on the Dependencies tab
    button of [OutputDisplay]. *)
Definition hasIndicator (dependencies : option (list jsstring))
  : thrown + bool :=
  match dependencies with
  | None => inl (Raised (NullPropertyRead (u16 "length")))
  | Some deps => inr (negb (Nat.eqb (List.length deps) 0))
  end.

(** The lines of a text as its reader sees them: the pieces between line
    feeds. *)
Fixpoint split_lines (s : jsstring) : list jsstring :=
  match s with
  | [] => [[]]
  | c :: r =>
      if c =? LF then [] :: split_lines r
      else
        match split_lines r with
        | l :: ls => (c :: l) :: ls
        | [] => [[c]]
        end
  end.

End Dependencies.

(* ================================================================== *)
(** ** hooks/useCodeMirror and components/CodeInput *)
(* ================================================================== *)

Module Editor.

(** [PLACEHOLDER_CODE] of [CodeInput]. *)
Definition PLACEHOLDER_CODE : jsstring :=
  lines [
    u16 "// Example:";
    u16 "function MyButton() {";
    u16 "  return (";
    u16 "    <button style={{";
    u16 "      padding: '10px 20px',";
    u16 "      border: '1px solid black',";
    u16 "      borderRadius: '5px'";
    u16 "    }}>";
    u16 "      Click Me";
    u16 "    </button>";
    u16 "  );";
    u16 "};";
    []
  ].

(** The CodeMirror instance, as far as the hook reads and writes it: the
    document ([getValue] / [setValue], with line feeds as line
    separators), the wrapper's [style.opacity] ([None] while unset) and the
    [readOnly] option.  The [mode] and [theme] options are left out. *)
Record Instance := mkInstance {
  doc : jsstring;
  opacity : option jsstring;
  readOnly : bool
}.

Definition with_doc (v : jsstring) (i : Instance) : Instance :=
  mkInstance v (opacity i) (readOnly i).

Definition with_opacity (o : string) (i : Instance) : Instance :=
  mkInstance (doc i) (Some (u16 o)) (readOnly i).

Section Hook.

(** Whether an [onChange] callback was passed, and the [placeholder]
    option (default [''] ). *)
Variable onChange : bool.
Variable placeholder : jsstring.

(** The [change] listener: the values it passes to [onChange]. *)
Definition change_listener (currentValue : jsstring) : list jsstring :=
  if negb (JsString.eqb currentValue placeholder) then [currentValue] else [].

(** The listener is registered under [if (onChange)]. *)
Definition dispatch_change (currentValue : jsstring) : list jsstring :=
  if onChange then change_listener currentValue else [].

(** [cm.setValue(v)]: CodeMirror replaces the document and dispatches
    [change]. *)
Definition setValue (v : jsstring) (i : Instance)
  : Instance * list jsstring :=
  (with_doc v i, dispatch_change v).

(** The user changes the document to [text] through the widget. *)
Definition on_input (text : jsstring) (i : Instance)
  : Instance * list jsstring :=
  (with_doc text i, dispatch_change text).

Definition focus_listener (i : Instance) : Instance * list jsstring :=
  if JsString.eqb (doc i) placeholder then
    let (i', calls) := setValue [] i in (with_opacity "1" i', calls)
  else (i, []).

Definition blur_listener (i : Instance) : Instance * list jsstring :=
  if is_empty (trim (doc i)) then
    let (i', calls) := setValue placeholder i in (with_opacity "0.6" i', calls)
  else (i, []).

(** Both listeners are registered under [if (placeholder)]. *)
Definition on_focus (i : Instance) : Instance * list jsstring :=
  if is_empty placeholder then (i, []) else focus_listener i.

Definition on_blur (i : Instance) : Instance * list jsstring :=
  if is_empty placeholder then (i, []) else blur_listener i.

(** The first effect: the instance made by [CodeMirror(...)]. *)
Definition create (value : jsstring) (isReadOnly : bool) : Instance :=
  mkInstance (or_else value placeholder)
             (if negb (is_empty placeholder) && is_empty value
              then Some (u16 "0.6") else None)
             isReadOnly.

(** The effect on [value, placeholder]. *)
Definition sync_value (value : jsstring) (i : Instance)
  : Instance * list jsstring :=
  if negb (JsString.eqb (doc i) value)
     && negb (JsString.eqb value placeholder)
  then
    if is_empty value && negb (is_empty placeholder) then
      let (i', calls) := setValue placeholder i in
      (with_opacity "0.6" i', calls)
    else
      let (i', calls) := setValue value i in
      (with_opacity "1" i', calls)
  else (i, []).

(** The effect on [isReadOnly]. *)
Definition sync_readOnly (isReadOnly : bool) (i : Instance) : Instance :=
  mkInstance (doc i) (Some (u16 (if isReadOnly then "0.5" else "1")))
             isReadOnly.

(** Mounting runs the effects in the order they are declared. *)
Definition mount (value : jsstring) (isReadOnly : bool)
  : Instance * list jsstring :=
  let (i, calls) := sync_value value (create value isReadOnly) in
  (sync_readOnly isReadOnly i, calls).

End Hook.

(** *** [CodeInput] inside [InputForm]

    The hook is used with [onChange = setUserCode] and
    [placeholder = PLACEHOLDER_CODE]; [value] is the form's [userCode]. *)

Record Session := mkSession {
  editor : Instance;
  form : State
}.

Inductive gesture :=
| Input (text : jsstring)
| Focus
| Blur.

Definition listener (g : gesture) (i : Instance) : Instance * list jsstring :=
  match g with
  | Input text => on_input true PLACEHOLDER_CODE text i
  | Focus => on_focus true PLACEHOLDER_CODE i
  | Blur => on_blur true PLACEHOLDER_CODE i
  end.

(** The [onChange] calls, in order. *)
Definition setCode_all (calls : list jsstring) (st : State) : State :=
  fold_left (fun s v => setUserCode v s) calls st.

(** One gesture: the listener runs, its calls set the form's code, and if
    the code changed the next render runs the effect on [value]. *)
Definition step (s : Session) (g : gesture) : Session :=
  let (i, calls) := listener g (editor s) in
  let st := setCode_all calls (form s) in
  if JsString.eqb (userCode st) (userCode (form s)) then mkSession i st
  else
    let (i', calls') := sync_value true PLACEHOLDER_CODE (userCode st) i in
    mkSession i' (setCode_all calls' st).

(** The freshly mounted input of a fresh form. *)
Definition mounted : Session :=
  let (i, calls) := mount true PLACEHOLDER_CODE (userCode initial) false in
  mkSession i (setCode_all calls initial).

Definition play (gs : list gesture) : Session := fold_left step gs mounted.

(** The code in the form is not the placeholder, and it is the editor's
    document unless the editor shows the placeholder. *)
Definition in_step (s : Session) : Prop :=
  userCode (form s) <> PLACEHOLDER_CODE /\
  (doc (editor s) = PLACEHOLDER_CODE \/ userCode (form s) = doc (editor s)).

End Editor.
Import Editor.

(* ================================================================== *)
(** ** Sample replies and form states *)
(* ================================================================== *)

Module Samples.

Definition quoted (s : string) : jsstring := QUOTE :: u16 s ++ [QUOTE].

Definition member (key : string) (value : jsstring) : jsstring :=
  quoted key ++ COLON :: value.

(** A reply object with the four schema fields, given its [language] and
    [improvedCode]. *)
Definition reply_text (lang code : string) : jsstring :=
  LBRACE :: member "language" (quoted lang)
  ++ COMMA :: member "improvedCode" (quoted code)
  ++ COMMA :: member "explanation" (quoted "Tidied up.")
  ++ COMMA :: member "dependencies" (u16 "[]")
  ++ [RBRACE].

Definition reply_members (lang code : string) : list (jsstring * jsval) :=
  [(u16 "language", VString (u16 lang));
   (u16 "improvedCode", VString (u16 code));
   (u16 "explanation", VString (u16 "Tidied up."));
   (u16 "dependencies", VArray [])].

(** A backend that answers every request with [text]. *)
Definition replies (text : jsstring) : jsstring -> reply :=
  fun _ => Resolves text.

(** A backend that rejects every request. *)
Definition rejects (reason : string) : jsstring -> reply :=
  fun _ => Rejects (u16 reason).

Definition engine_text : engine_error -> jsstring :=
  fun _ => u16 "engine error".

(** The fresh form with [code] typed into the editor. *)
Definition typed (code : string) : State := setUserCode (u16 code) initial.

(** The form as a successful markup refactoring leaves it. *)
Definition after_html_result : State :=
  final (typed "<p>hi</p>")
        (handleSubmit (replies (reply_text "html" "<p class='p-4'>hi</p>"))
                      engine_text (typed "<p>hi</p>")).

End Samples.
Import Samples.

(* ================================================================== *)
(** ** Further sample data *)
(* ================================================================== *)

Module MoreSamples.

(** A reply object that has the [language] field only. *)
Definition bare_reply (lang : string) : jsstring :=
  LBRACE :: member "language" (quoted lang) ++ [RBRACE].

(** The form as a successful component refactoring leaves it. *)
Definition after_tsx_result : State :=
  final (typed "function A() {}")
        (handleSubmit
           (replies (reply_text "tsx" "function RefactoredComponent() {}"))
           engine_text (typed "function A() {}")).



(** Markup that carries a script element of its own. *)
Definition markup_with_script : string :=
  "<p>hi</p><script src='https://unpkg.com/react@18/umd/react.development.js'></script>".



End MoreSamples.
Import MoreSamples.

(* ================================================================== *)
(** * Properties *)
(* ================================================================== *)

(** ** Strings *)

Section StringFacts.

Lemma eqb_refl (s : jsstring) : JsString.eqb s s = true.
Proof.
  induction s as [|c s IH]; simpl; [reflexivity|].
  now rewrite N.eqb_refl, IH.
Qed.

Lemma eqb_eq (s t : jsstring) : JsString.eqb s t = true <-> s = t.
Proof.
  split; [|intros ->; apply eqb_refl].
  revert t; induction s as [|c s IH]; intros [|d t]; simpl; try discriminate.
  - reflexivity.
  - rewrite andb_true_iff, N.eqb_eq. intros [-> H]. now rewrite (IH t H).
Qed.

Lemma is_empty_true (s : jsstring) : is_empty s = true <-> s = [].
Proof. destruct s; simpl; split; congruence. Qed.

Lemma is_empty_false (s : jsstring) : is_empty s = false <-> s <> [].
Proof. destruct s; simpl; split; congruence. Qed.

Lemma trimStart_all_ws (s : jsstring) :
  Forall (fun c => is_js_whitespace c = true) s -> trimStart s = [].
Proof.
  induction 1 as [|c s Hc _ IH]; simpl; [reflexivity|]. now rewrite Hc.
Qed.

Lemma trim_all_ws (s : jsstring) :
  Forall (fun c => is_js_whitespace c = true) s -> trim s = [].
Proof.
  intros H. unfold trim, trimEnd. now rewrite (trimStart_all_ws s H).
Qed.

Lemma trimStart_head (s : jsstring) (c : N) (r : jsstring) :
  trimStart s = c :: r -> is_js_whitespace c = false.
Proof.
  induction s as [|d s IH]; simpl; [discriminate|].
  destruct (is_js_whitespace d) eqn:E; [exact IH|].
  intros [= <- _]. exact E.
Qed.

Lemma trimStart_keeps_last (a : jsstring) (c : N) :
  is_js_whitespace c = false -> trimStart (a ++ [c]) = trimStart a ++ [c].
Proof.
  intros Hc. induction a as [|d a IH]; simpl.
  - now rewrite Hc.
  - destruct (is_js_whitespace d); [exact IH | reflexivity].
Qed.

(** A trimmed string is empty, or begins and ends with code units that are
    not white space. *)
Lemma trim_shape (s : jsstring) :
  trim s = [] \/
  exists c mid d,
    is_js_whitespace c = false /\ is_js_whitespace d = false /\
    (trim s = c :: mid ++ [d] \/ (trim s = [c] /\ d = c)).
Proof.
  unfold trim, trimEnd.
  destruct (trimStart s) as [|c r] eqn:E; [now left|]. right.
  pose proof (trimStart_head _ _ _ E) as Hc.
  change (rev (c :: r)) with (rev r ++ [c]).
  rewrite (trimStart_keeps_last _ _ Hc), rev_app_distr. simpl.
  destruct (trimStart (rev r)) as [|d r'] eqn:E'.
  - exists c, [], c. simpl. auto.
  - exists c, (rev r'), d. simpl.
    split; [exact Hc|]. split; [exact (trimStart_head _ _ _ E')|]. now left.
Qed.

Lemma trim_head (s : jsstring) (c : N) (r : jsstring) :
  trim s = c :: r -> is_js_whitespace c = false.
Proof.
  intros H. destruct (trim_shape s) as [E|(c' & mid & d & Hc & Hd & [E|[E _]])];
    rewrite E in H; try discriminate; now injection H as <- _.
Qed.

Lemma trim_last (s pre : jsstring) (d : N) :
  trim s = pre ++ [d] -> is_js_whitespace d = false.
Proof.
  intros H. destruct (trim_shape s) as [E|(c' & mid & d' & Hc & Hd & [E|[E ->]])];
    rewrite E in H.
  - now destruct pre.
  - change (c' :: mid ++ [d']) with ((c' :: mid) ++ [d']) in H.
    apply app_inj_tail in H. destruct H as [_ <-]. exact Hd.
  - change [c'] with ([] ++ [c']) in H.
    apply app_inj_tail in H. destruct H as [_ <-]. exact Hc.
Qed.

Lemma endsWith_snoc (c d : N) (pre : jsstring) :
  endsWith c (pre ++ [d]) = (d =? c).
Proof. unfold endsWith. now rewrite rev_app_distr. Qed.

Lemma lines_cons (l : jsstring) (m : jsstring) (rest : list jsstring) :
  lines (l :: m :: rest) = l ++ LF :: lines (m :: rest).
Proof. reflexivity. Qed.

End StringFacts.

(** ** The JSON parser *)

Section ParserFacts.

Lemma json_ws_is_js_ws (c : N) :
  is_json_ws c = true -> is_js_whitespace c = true.
Proof.
  unfold is_json_ws. intros H.
  rewrite !orb_true_iff, !N.eqb_eq in H.
  destruct H as [[[->| ->]| ->]| ->]; reflexivity.
Qed.

Lemma skip_ws_split (s : jsstring) :
  exists w, s = w ++ skip_ws s /\ Forall (fun c => is_json_ws c = true) w.
Proof.
  induction s as [|c s (w & E & F)]; simpl.
  - now exists [].
  - destruct (is_json_ws c) eqn:H.
    + exists (c :: w). split; [simpl; congruence | now constructor].
    + now exists [].
Qed.

Lemma skip_ws_id (c : N) (r : jsstring) :
  is_json_ws c = false -> skip_ws (c :: r) = c :: r.
Proof. intros H. simpl. now rewrite H. Qed.

Lemma suffix_after_proper (c : N) (rest s : jsstring) :
  suffix_after c rest s -> proper_suffix rest s.
Proof.
  intros (mid & ->). exists (mid ++ [c]). split.
  - now destruct mid.
  - now rewrite <- app_assoc.
Qed.

Lemma proper_suffix_length (rest s : jsstring) :
  proper_suffix rest s -> (List.length rest < List.length s)%nat.
Proof.
  intros (pre & Hne & ->). rewrite length_app.
  destruct pre; [congruence | simpl; lia].
Qed.

Lemma proper_suffix_app (w rest s : jsstring) :
  proper_suffix rest s -> proper_suffix rest (w ++ s).
Proof.
  intros (pre & Hne & ->). exists (w ++ pre). split.
  - destruct w; [exact Hne | discriminate].
  - now rewrite app_assoc.
Qed.

Lemma proper_suffix_trans (a b c : jsstring) :
  proper_suffix a b -> proper_suffix b c -> proper_suffix a c.
Proof. intros H (pre & _ & ->). now apply proper_suffix_app. Qed.

Lemma proper_suffix_cons (c : N) (rest : jsstring) :
  proper_suffix rest (c :: rest).
Proof. exists [c]. split; [discriminate | reflexivity]. Qed.

Lemma proper_suffix_skip_ws (rest s : jsstring) :
  proper_suffix rest (skip_ws s) -> proper_suffix rest s.
Proof.
  intros H. destruct (skip_ws_split s) as (w & E & _). rewrite E.
  now apply proper_suffix_app.
Qed.

Lemma suffix_after_app (c : N) (w rest s : jsstring) :
  suffix_after c rest s -> suffix_after c rest (w ++ s).
Proof. intros (mid & ->). exists (w ++ mid). now rewrite app_assoc. Qed.

Lemma suffix_after_skip_ws (c : N) (rest s : jsstring) :
  suffix_after c rest (skip_ws s) -> suffix_after c rest s.
Proof.
  intros H. destruct (skip_ws_split s) as (w & E & _). rewrite E.
  now apply suffix_after_app.
Qed.

Lemma suffix_after_proper_trans (c : N) (a b s : jsstring) :
  suffix_after c a b -> proper_suffix b s -> suffix_after c a s.
Proof. intros H (pre & _ & ->). now apply suffix_after_app. Qed.

Lemma parse_string_body_closes (n : nat) :
  forall s cs rest,
    (List.length s <= n)%nat ->
    parse_string_body s = Some (cs, rest) -> suffix_after QUOTE rest s.
Proof.
  induction n as [|n IH]; intros [|c r] cs rest Hn; simpl in *;
    try discriminate; try lia.
  assert (Hstep : forall t x,
             (List.length t <= n)%nat ->
             match parse_string_body t with
             | Some (cs0, rest0) => Some (x :: cs0, rest0)
             | None => None
             end = Some (cs, rest) ->
             forall w, suffix_after QUOTE rest (w ++ t)).
  { intros t x Ht H w.
    destruct (parse_string_body t) as [[cs0 rest0]|] eqn:E; [|discriminate].
    injection H as _ <-. apply suffix_after_app. exact (IH _ _ _ Ht E). }
  destruct (c =? QUOTE) eqn:Eq.
  - intros [= _ <-]. apply N.eqb_eq in Eq. subst c. now exists [].
  - destruct (c =? BACKSLASH).
    + destruct r as [|e r1]; [discriminate|].
      destruct (e =? 117).
      * destruct r1 as [|h1 [|h2 [|h3 [|h4 r2]]]]; try discriminate.
        destruct (hex_value h1), (hex_value h2), (hex_value h3), (hex_value h4);
          try discriminate.
        intros H.
        apply (Hstep r2 _ ltac:(simpl in Hn; lia) H [c; e; h1; h2; h3; h4]).
      * destruct (simple_escape e); [|discriminate].
        intros H. apply (Hstep r1 _ ltac:(simpl in Hn; lia) H [c; e]).
    + destruct (c <? 32); [discriminate|].
      intros H. apply (Hstep r _ ltac:(lia) H [c]).
Qed.

Lemma span_digits_split (s : jsstring) :
  s = fst (span_digits s) ++ snd (span_digits s).
Proof.
  induction s as [|c s IH]; simpl; [reflexivity|].
  destruct (is_digit c); [|reflexivity].
  destruct (span_digits s) as [ds rest]. simpl in *. congruence.
Qed.

(** [rest] is what is left of [s] behind some prefix. *)
Lemma parse_int_proper (s ds rest : jsstring) :
  parse_int s = Some (ds, rest) -> proper_suffix rest s.
Proof.
  destruct s as [|c r]; simpl; [discriminate|].
  destruct (c =? 48).
  - intros [= _ <-]. apply proper_suffix_cons.
  - destruct (is_digit c); [|discriminate].
    pose proof (span_digits_split r) as E.
    destruct (span_digits r) as [ds' rest']. simpl in E.
    intros [= _ <-]. exists (c :: ds'). split; [discriminate|]. simpl. congruence.
Qed.

Lemma parse_frac_suffix (s ds rest : jsstring) :
  parse_frac s = Some (ds, rest) -> exists pre, s = pre ++ rest.
Proof.
  destruct s as [|c r]; simpl.
  - intros [= _ <-]. now exists [].
  - destruct (c =? 46).
    + pose proof (span_digits_split r) as E.
      destruct (span_digits r) as [ds' rest']. simpl in E.
      destruct (is_empty ds'); [discriminate|].
      intros [= _ <-]. exists (c :: ds'). simpl. congruence.
    + intros [= _ <-]. now exists [].
Qed.

Lemma parse_exp_suffix (s : jsstring) (e : Z) (rest : jsstring) :
  parse_exp s = Some (e, rest) -> exists pre, s = pre ++ rest.
Proof.
  destruct s as [|c r]; simpl.
  - intros [= _ <-]. now exists [].
  - destruct ((c =? 101) || (c =? 69)).
    + assert (Hsign : exists w r1,
                 r = w ++ r1 /\
                 (let (_, r1') :=
                    match r with
                    | sg :: r' =>
                        if sg =? 45 then (true, r')
                        else if sg =? 43 then (false, r') else (false, r)
                    | [] => (false, r)
                    end in r1') = r1).
      { destruct r as [|sg r']; [now exists [], []|].
        destruct (sg =? 45); [now exists [sg], r'|].
        destruct (sg =? 43); [now exists [sg], r' | now exists [], (sg :: r')]. }
      destruct Hsign as (w & r1 & Er & Hr1).
      destruct (match r with
                | sg :: r' =>
                    if sg =? 45 then (true, r')
                    else if sg =? 43 then (false, r') else (false, r)
                | [] => (false, r)
                end) as [neg r1'].
      subst r1'. pose proof (span_digits_split r1) as E.
      destruct (span_digits r1) as [ds rest']. simpl in E.
      destruct (is_empty ds); [discriminate|].
      intros [= _ <-]. exists (c :: w ++ ds). simpl.
      rewrite <- app_assoc. congruence.
    + intros [= _ <-]. now exists [].
Qed.

Lemma parse_number_proper (s : jsstring) (n : number) (rest : jsstring) :
  parse_number s = Some (n, rest) -> proper_suffix rest s.
Proof.
  unfold parse_number.
  assert (Hsign : exists w s1,
             s = w ++ s1 /\
             snd (match s with
                  | c :: r => if c =? 45 then (true, r) else (false, s)
                  | [] => (false, s)
                  end) = s1).
  { destruct s as [|c r]; [now exists [], []|].
    destruct (c =? 45); [now exists [c], r | now exists [], (c :: r)]. }
  destruct Hsign as (w & s1 & Es & Hs1).
  destruct (match s with
            | c :: r => if c =? 45 then (true, r) else (false, s)
            | [] => (false, s)
            end) as [neg s1'].
  simpl in Hs1. subst s1'.
  destruct (parse_int s1) as [[ids s2]|] eqn:Ei; [|discriminate].
  destruct (parse_frac s2) as [[fds s3]|] eqn:Ef; [|discriminate].
  destruct (parse_exp s3) as [[e rest']|] eqn:Ee; [|discriminate].
  intros [= _ <-]. rewrite Es. apply proper_suffix_app.
  apply parse_int_proper in Ei. destruct Ei as (p1 & Hp1 & ->).
  apply parse_frac_suffix in Ef. destruct Ef as (p2 & ->).
  apply parse_exp_suffix in Ee. destruct Ee as (p3 & ->).
  exists (p1 ++ p2 ++ p3). split.
  - destruct p1; [congruence | discriminate].
  - now rewrite <- !app_assoc.
Qed.

Lemma prefixb_split (p s : jsstring) :
  prefixb p s = true -> s = p ++ skipn (List.length p) s.
Proof.
  revert s; induction p as [|c p IH]; intros [|d s]; simpl; try discriminate;
    try reflexivity.
  rewrite andb_true_iff, N.eqb_eq. intros [-> H]. now rewrite <- (IH s H).
Qed.

Lemma u16_length (kw : string) : List.length (u16 kw) = String.length kw.
Proof.
  unfold u16. rewrite length_map.
  induction kw as [|a kw IH]; simpl; congruence.
Qed.

Lemma keyword_proper (kw : string) (v w : jsval) (s rest : jsstring) :
  kw <> EmptyString ->
  keyword kw v s = Parsed w rest -> proper_suffix rest s /\ w = v.
Proof.
  unfold keyword. intros Hkw.
  destruct (prefixb (u16 kw) s) eqn:E; [|discriminate].
  intros [= <- <-]. split; [|reflexivity].
  exists (u16 kw). split.
  - destruct kw; [congruence | discriminate].
  - rewrite <- u16_length. now apply prefixb_split.
Qed.

Lemma pbind_parsed {A B} (p : presult A) (k : A -> jsstring -> presult B)
    (b : B) (rest : jsstring) :
  pbind p k = Parsed b rest ->
  exists a r, p = Parsed a r /\ k a r = Parsed b rest.
Proof. destruct p; simpl; try discriminate. intros H. eauto. Qed.

Lemma of_option_parsed {A} (o : option (A * jsstring)) (a : A)
    (rest : jsstring) :
  of_option o = Parsed a rest -> o = Some (a, rest).
Proof. destruct o as [[a' r]|]; simpl; congruence. Qed.

Lemma expect_closes (c : N) (s rest : jsstring) (u : unit) :
  expect c s = Parsed u rest -> suffix_after c rest s.
Proof.
  unfold expect. intros H. apply suffix_after_skip_ws.
  destruct (skip_ws s) as [|d r]; [discriminate|].
  destruct (d =? c) eqn:E; [|discriminate].
  apply N.eqb_eq in E. subst d. injection H as _ <-. now exists [].
Qed.

(** What a successful run has consumed: a value takes a non-empty prefix,
    an object takes one from its opening to its closing brace, and the two
    list readers stop behind the closing bracket or brace. *)
Lemma parse_shape (fuel : nat) :
  (forall s v rest,
      parse_value fuel s = Parsed v rest ->
      proper_suffix rest s /\
      (forall ms, v = VObject ms ->
                  exists mid, skip_ws s = LBRACE :: mid ++ RBRACE :: rest))
  /\ (forall s vs rest,
      parse_elements fuel s = Parsed vs rest -> suffix_after RBRACKET rest s)
  /\ (forall s ms rest,
      parse_members fuel s = Parsed ms rest -> suffix_after RBRACE rest s).
Proof.
  induction fuel as [|fuel (IHv & IHe & IHm)];
    [repeat split; intros; discriminate|].
  split; [intros s v rest H; split | split].
  - (* proper suffix *)
    simpl in H. apply proper_suffix_skip_ws.
    destruct (skip_ws s) as [|c r]; [discriminate|].
    destruct (c =? LBRACE).
    { destruct (skip_ws_split r) as (w & Er & _).
      destruct (skip_ws r) as [|d r']; [discriminate|].
      destruct (d =? RBRACE).
      - injection H as _ <-. rewrite Er.
        exists (c :: w ++ [d]). split; [discriminate|].
        simpl. now rewrite <- app_assoc.
      - apply pbind_parsed in H. destruct H as (ms & r1 & Hm & [= _ <-]).
        apply IHm, suffix_after_proper in Hm.
        eapply proper_suffix_trans; [exact Hm | apply proper_suffix_cons]. }
    destruct (c =? LBRACKET).
    { destruct (skip_ws_split r) as (w & Er & _).
      destruct (skip_ws r) as [|d r']; [discriminate|].
      destruct (d =? RBRACKET).
      - injection H as _ <-. rewrite Er.
        exists (c :: w ++ [d]). split; [discriminate|].
        simpl. now rewrite <- app_assoc.
      - apply pbind_parsed in H. destruct H as (v1 & r1 & Hv & H).
        apply pbind_parsed in H. destruct H as (vs & r2 & He & [= _ <-]).
        apply IHv in Hv. destruct Hv as [Hv _].
        apply IHe, suffix_after_proper in He.
        eapply proper_suffix_trans; [exact He|].
        eapply proper_suffix_trans; [exact Hv | apply proper_suffix_cons]. }
    destruct (c =? QUOTE).
    { apply pbind_parsed in H. destruct H as (str & r1 & Hs & [= _ <-]).
      apply of_option_parsed in Hs.
      apply (parse_string_body_closes _ _ _ _ (le_n _)) in Hs.
      apply suffix_after_proper in Hs.
      eapply proper_suffix_trans; [exact Hs | apply proper_suffix_cons]. }
    destruct ((c =? 45) || is_digit c).
    { apply pbind_parsed in H. destruct H as (n & r1 & Hn & [= _ <-]).
      apply of_option_parsed in Hn. exact (parse_number_proper _ _ _ Hn). }
    destruct (c =? 116);
      [apply keyword_proper in H; [tauto | discriminate]|].
    destruct (c =? 102);
      [apply keyword_proper in H; [tauto | discriminate]|].
    destruct (c =? 110);
      [apply keyword_proper in H; [tauto | discriminate]|].
    discriminate.
  - (* objects *)
    intros ms ->. simpl in H.
    destruct (skip_ws s) as [|c r]; [discriminate|].
    destruct (c =? LBRACE) eqn:Ec.
    { apply N.eqb_eq in Ec. subst c.
      destruct (skip_ws_split r) as (w & Er & _).
      destruct (skip_ws r) as [|d r'] eqn:Ed; [discriminate|].
      destruct (d =? RBRACE) eqn:Edc.
      - apply N.eqb_eq in Edc. subst d. injection H as _ <-.
        exists w. congruence.
      - apply pbind_parsed in H. destruct H as (ms' & r1 & Hm & [= _ <-]).
        apply IHm in Hm. destruct Hm as (mid & ->). now exists mid. }
    destruct (c =? LBRACKET).
    { destruct (skip_ws r) as [|d r']; [discriminate|].
      destruct (d =? RBRACKET); [discriminate|].
      apply pbind_parsed in H. destruct H as (v1 & r1 & Hv & H).
      apply pbind_parsed in H. destruct H as (vs & r2 & He & H). discriminate. }
    destruct (c =? QUOTE).
    { apply pbind_parsed in H. destruct H as (? & ? & _ & H). discriminate. }
    destruct ((c =? 45) || is_digit c).
    { apply pbind_parsed in H. destruct H as (? & ? & _ & H). discriminate. }
    destruct (c =? 116);
      [apply keyword_proper in H; [destruct H; discriminate | discriminate]|].
    destruct (c =? 102);
      [apply keyword_proper in H; [destruct H; discriminate | discriminate]|].
    destruct (c =? 110);
      [apply keyword_proper in H; [destruct H; discriminate | discriminate]|].
    discriminate.
  - (* elements *)
    intros s vs rest. simpl. intros H. apply suffix_after_skip_ws.
    destruct (skip_ws s) as [|c r]; [discriminate|].
    destruct (c =? RBRACKET) eqn:Ec.
    { apply N.eqb_eq in Ec. subst c. injection H as _ <-. now exists []. }
    destruct (c =? COMMA); [|discriminate].
    apply pbind_parsed in H. destruct H as (v1 & r1 & Hv & H).
    apply pbind_parsed in H. destruct H as (vs' & r2 & He & [= _ <-]).
    apply IHv in Hv. destruct Hv as [Hv _]. apply IHe in He.
    eapply suffix_after_proper_trans; [exact He|].
    eapply proper_suffix_trans; [exact Hv | apply proper_suffix_cons].
  - (* members *)
    intros s ms rest. simpl. intros H.
    apply pbind_parsed in H. destruct H as (u & r & Hq & H).
    apply pbind_parsed in H. destruct H as (key & r1 & Hk & H).
    apply pbind_parsed in H. destruct H as (u' & r2 & Hc & H).
    apply pbind_parsed in H. destruct H as (v & r3 & Hv & H).
    apply expect_closes, suffix_after_proper in Hq.
    apply of_option_parsed in Hk.
    apply (parse_string_body_closes _ _ _ _ (le_n _)), suffix_after_proper in Hk.
    apply expect_closes, suffix_after_proper in Hc.
    apply IHv in Hv. destruct Hv as [Hv _].
    assert (Hr3 : proper_suffix r3 s).
    { eapply proper_suffix_trans; [exact Hv|].
      eapply proper_suffix_trans; [exact Hc|].
      eapply proper_suffix_trans; [exact Hk | exact Hq]. }
    assert (Hend : suffix_after RBRACE rest r3);
      [|exact (suffix_after_proper_trans _ _ _ _ Hend Hr3)].
    apply suffix_after_skip_ws.
    destruct (skip_ws r3) as [|c r4]; [discriminate|].
    destruct (c =? RBRACE) eqn:Ec.
    { apply N.eqb_eq in Ec. subst c. injection H as _ <-. now exists []. }
    destruct (c =? COMMA); [|discriminate].
    apply pbind_parsed in H. destruct H as (ms' & r5 & Hm & [= _ <-]).
    apply IHm in Hm. now apply (suffix_after_app _ [c]) in Hm.
Qed.

Lemma skip_ws_length (s : jsstring) :
  (List.length (skip_ws s) <= List.length s)%nat.
Proof.
  destruct (skip_ws_split s) as (w & E & _).
  rewrite E at 2. rewrite length_app. lia.
Qed.

Lemma pbind_fuel {A B} (p : presult A) (k : A -> jsstring -> presult B) :
  p <> OutOfFuel ->
  (forall a r, p = Parsed a r -> k a r <> OutOfFuel) ->
  pbind p k <> OutOfFuel.
Proof. destruct p; simpl; intros Hp Hk; [congruence | discriminate | now apply Hk]. Qed.

Lemma of_option_fuel {A} (o : option (A * jsstring)) :
  of_option o <> OutOfFuel.
Proof. destruct o as [[a r]|]; discriminate. Qed.

Lemma keyword_fuel (kw : string) (v : jsval) (s : jsstring) :
  keyword kw v s <> OutOfFuel.
Proof. unfold keyword. destruct (prefixb (u16 kw) s); discriminate. Qed.

Lemma expect_fuel (c : N) (s : jsstring) : expect c s <> OutOfFuel.
Proof.
  unfold expect. destruct (skip_ws s) as [|d r]; [discriminate|].
  destruct (d =? c); discriminate.
Qed.

(** The recursion depth never exceeds the number of code units: with more
    fuel than that, no reader gives up. *)
Lemma parse_fuel (fuel : nat) :
  (forall s, (List.length s < fuel)%nat -> parse_value fuel s <> OutOfFuel)
  /\ (forall s, (List.length s < fuel)%nat -> parse_elements fuel s <> OutOfFuel)
  /\ (forall s, (List.length s < fuel)%nat -> parse_members fuel s <> OutOfFuel).
Proof.
  induction fuel as [|fuel (IHv & IHe & IHm)];
    [repeat split; intros; lia|].
  destruct (parse_shape fuel) as (Sv & Se & Sm).
  split; [|split]; intros s Hs; simpl.
  - pose proof (skip_ws_length s) as Hw.
    destruct (skip_ws s) as [|c r]; [discriminate|]. simpl in Hw.
    destruct (c =? LBRACE).
    { destruct (skip_ws r) as [|d r']; [discriminate|].
      destruct (d =? RBRACE); [discriminate|].
      apply pbind_fuel; [apply IHm; lia | discriminate]. }
    destruct (c =? LBRACKET).
    { destruct (skip_ws r) as [|d r']; [discriminate|].
      destruct (d =? RBRACKET); [discriminate|].
      apply pbind_fuel; [apply IHv; lia|]. intros v r1 Hv.
      apply Sv in Hv. destruct Hv as [Hv _]. apply proper_suffix_length in Hv.
      apply pbind_fuel; [apply IHe; lia | discriminate]. }
    destruct (c =? QUOTE).
    { apply pbind_fuel; [apply of_option_fuel | discriminate]. }
    destruct ((c =? 45) || is_digit c).
    { apply pbind_fuel; [apply of_option_fuel | discriminate]. }
    destruct (c =? 116); [apply keyword_fuel|].
    destruct (c =? 102); [apply keyword_fuel|].
    destruct (c =? 110); [apply keyword_fuel | discriminate].
  - pose proof (skip_ws_length s) as Hw.
    destruct (skip_ws s) as [|c r]; [discriminate|]. simpl in Hw.
    destruct (c =? RBRACKET); [discriminate|].
    destruct (c =? COMMA); [|discriminate].
    apply pbind_fuel; [apply IHv; lia|]. intros v r1 Hv.
    apply Sv in Hv. destruct Hv as [Hv _]. apply proper_suffix_length in Hv.
    apply pbind_fuel; [apply IHe; lia | discriminate].
  - apply pbind_fuel; [apply expect_fuel|]. intros u r Hq.
    apply expect_closes, suffix_after_proper, proper_suffix_length in Hq.
    apply pbind_fuel; [apply of_option_fuel|]. intros key r1 Hk.
    apply of_option_parsed in Hk.
    apply (parse_string_body_closes _ _ _ _ (le_n _)), suffix_after_proper,
      proper_suffix_length in Hk.
    apply pbind_fuel; [apply expect_fuel|]. intros u' r2 Hc.
    apply expect_closes, suffix_after_proper, proper_suffix_length in Hc.
    apply pbind_fuel; [apply IHv; lia|]. intros v r3 Hv.
    apply Sv in Hv. destruct Hv as [Hv _]. apply proper_suffix_length in Hv.
    pose proof (skip_ws_length r3) as Hw.
    destruct (skip_ws r3) as [|c r4]; [discriminate|]. simpl in Hw.
    destruct (c =? RBRACE); [discriminate|].
    destruct (c =? COMMA); [|discriminate].
    apply pbind_fuel; [apply IHm; lia | discriminate].
Qed.

Lemma pbind_stable {A B} (p p' : presult A)
    (k k' : A -> jsstring -> presult B) :
  (p <> OutOfFuel -> p' = p) ->
  (forall a r, k a r <> OutOfFuel -> k' a r = k a r) ->
  pbind p k <> OutOfFuel -> pbind p' k' = pbind p k.
Proof.
  intros Hp Hk. destruct p; simpl; intros H.
  - congruence.
  - now rewrite Hp.
  - rewrite Hp by discriminate. simpl. now apply Hk.
Qed.

(** A result other than [OutOfFuel] is the result at every larger fuel. *)
Lemma parse_stable (f1 : nat) :
  forall f2, (f1 <= f2)%nat ->
  (forall s, parse_value f1 s <> OutOfFuel ->
             parse_value f2 s = parse_value f1 s)
  /\ (forall s, parse_elements f1 s <> OutOfFuel ->
                parse_elements f2 s = parse_elements f1 s)
  /\ (forall s, parse_members f1 s <> OutOfFuel ->
                parse_members f2 s = parse_members f1 s).
Proof.
  induction f1 as [|f1 IH]; intros f2 Hle;
    [repeat split; intros s H; now contradiction H|].
  destruct f2 as [|f2]; [lia|].
  destruct (IH f2 ltac:(lia)) as (IHv & IHe & IHm).
  split; [|split]; intros s; simpl.
  - destruct (skip_ws s) as [|c r]; [reflexivity|].
    destruct (c =? LBRACE).
    { destruct (skip_ws r) as [|d r']; [reflexivity|].
      destruct (d =? RBRACE); [reflexivity|].
      apply pbind_stable; [apply IHm | reflexivity]. }
    destruct (c =? LBRACKET).
    { destruct (skip_ws r) as [|d r']; [reflexivity|].
      destruct (d =? RBRACKET); [reflexivity|].
      apply pbind_stable; [apply IHv|]. intros v r1.
      apply pbind_stable; [apply IHe | reflexivity]. }
    reflexivity.
  - destruct (skip_ws s) as [|c r]; [reflexivity|].
    destruct (c =? RBRACKET); [reflexivity|].
    destruct (c =? COMMA); [|reflexivity].
    apply pbind_stable; [apply IHv|]. intros v r1.
    apply pbind_stable; [apply IHe | reflexivity].
  - apply pbind_stable; [reflexivity|]. intros u r.
    apply pbind_stable; [reflexivity|]. intros key r1.
    apply pbind_stable; [reflexivity|]. intros u' r2.
    apply pbind_stable; [apply IHv|]. intros v r3.
    destruct (skip_ws r3) as [|c r4]; [reflexivity|].
    destruct (c =? RBRACE); [reflexivity|].
    destruct (c =? COMMA); [|reflexivity].
    apply pbind_stable; [apply IHm | reflexivity].
Qed.

(** [JSON_parse] does not depend on the fuel it runs with: any larger
    amount gives the same answer, so [None] always is a syntax error. *)
Lemma JSON_parse_fuel (text : jsstring) (fuel : nat) :
  (List.length text < fuel)%nat ->
  parse_value fuel text = parse_value (S (List.length text)) text
  /\ parse_value fuel text <> OutOfFuel.
Proof.
  intros H.
  destruct (parse_fuel (S (List.length text))) as (Hv & _ & _).
  specialize (Hv text (Nat.lt_succ_diag_r _)).
  destruct (parse_stable (S (List.length text)) fuel ltac:(lia)) as (Sv & _ & _).
  rewrite (Sv text Hv). split; [reflexivity | exact Hv].
Qed.

(** A text that parses to an object starts, after white space, with an
    opening brace and ends, before white space, with a closing brace. *)
Lemma JSON_parse_object (text : jsstring) (ms : list (jsstring * jsval)) :
  JSON_parse text = Some (VObject ms) ->
  exists mid rest,
    skip_ws text = LBRACE :: mid ++ RBRACE :: rest /\ skip_ws rest = [].
Proof.
  unfold JSON_parse.
  destruct (parse_value (S (List.length text)) text) as [| |v rest] eqn:E;
    try discriminate.
  destruct (is_empty (skip_ws rest)) eqn:Er; [|discriminate].
  intros [= ->].
  destruct (parse_shape (S (List.length text))) as (Sv & _ & _).
  destruct (Sv _ _ _ E) as [_ Hobj].
  destruct (Hobj ms eq_refl) as (mid & Hmid).
  exists mid, rest. split; [exact Hmid | now apply is_empty_true].
Qed.

End ParserFacts.

(** ** [JSON_parse] on sample texts *)

Section ParserExamples.

Example parse_reply :
  JSON_parse (reply_text "html" "<p>hi</p>")
  = Some (VObject (reply_members "html" "<p>hi</p>")).
Proof. vm_compute. reflexivity. Qed.

Example parse_nested :
  JSON_parse (u16 " [1, -2.50e1, true, null, [], {}] ")
  = Some (VArray [VNumber (mkNumber false 1 0);
                  VNumber (mkNumber true 250 (-1));
                  VBool true; VNull; VArray []; VObject []]).
Proof. vm_compute. reflexivity. Qed.

Example parse_escapes :
  JSON_parse (QUOTE :: u16 "a\n\u0041\/" ++ [QUOTE])
  = Some (VString [97; 10; 65; 47]).
Proof. vm_compute. reflexivity. Qed.

Example parse_trailing_comma : JSON_parse (u16 "[1,]") = None.
Proof. vm_compute. reflexivity. Qed.

Example parse_leading_zero : JSON_parse (u16 "01") = None.
Proof. vm_compute. reflexivity. Qed.

Example parse_two_values : JSON_parse (u16 "{} {}") = None.
Proof. vm_compute. reflexivity. Qed.

Example parse_unclosed : JSON_parse (u16 "{") = None.
Proof. vm_compute. reflexivity. Qed.

(** A repeated key keeps its last value. *)
Example parse_repeated_key :
  match JSON_parse (LBRACE :: member "language" (quoted "tsx")
                    ++ COMMA :: member "language" (quoted "html") ++ [RBRACE])
  with
  | Some (VObject members) => lookup (u16 "language") members
  | _ => None
  end = Some (VString (u16 "html")).
Proof. vm_compute. reflexivity. Qed.

Example trim_sample : trim (u16 "  {x}  ") = u16 "{x}".
Proof. vm_compute. reflexivity. Qed.

End ParserExamples.

(** ** The completion client *)

Section ClientFacts.

Variable backend : jsstring -> reply.
Variables userCode refactorPrompt stylePrompt : jsstring.

Let prompt : jsstring := fullPrompt userCode refactorPrompt stylePrompt.
Let call : Exec jsval :=
  getUIImprovementFromCode backend userCode refactorPrompt stylePrompt.

(** A trimmed text that parses to an object passes the brace test. *)
Lemma object_passes_brace_test (text : jsstring)
    (members : list (jsstring * jsval)) :
  JSON_parse (trim text) = Some (VObject members) ->
  startsWith LBRACE (trim text) = true /\ endsWith RBRACE (trim text) = true.
Proof.
  intros H. destruct (JSON_parse_object _ _ H) as (mid & rest & Hs & Hr).
  destruct (trim text) as [|c r] eqn:Et; [discriminate|].
  pose proof (trim_head _ _ _ Et) as Hc.
  assert (Hj : is_json_ws c = false).
  { destruct (is_json_ws c) eqn:E; [|reflexivity].
    apply json_ws_is_js_ws in E. congruence. }
  rewrite (skip_ws_id _ _ Hj) in Hs. rewrite Hs. split; [apply N.eqb_refl|].
  destruct (skip_ws_split rest) as (w & Ew & Hw). rewrite Hr, app_nil_r in Ew.
  subst w.
  destruct rest as [|x rest'].
  - change (LBRACE :: mid ++ [RBRACE]) with ((LBRACE :: mid) ++ [RBRACE]).
    rewrite endsWith_snoc. apply N.eqb_refl.
  - exfalso.
    destruct (@exists_last _ (x :: rest') ltac:(discriminate)) as (pre & d & E).
    rewrite E in Hw, Hs.
    apply Forall_app in Hw. destruct Hw as [_ Hd].
    apply Forall_inv, json_ws_is_js_ws in Hd.
    assert (Hlast : trim text = (LBRACE :: mid ++ RBRACE :: pre) ++ [d]).
    { rewrite Et, Hs. simpl. now rewrite <- app_assoc. }
    apply trim_last in Hlast. congruence.
Qed.

Lemma call_rejected (reason : jsstring) :
  backend prompt = Rejects reason ->
  call =
  ([GenerateContent MODEL prompt;
    ConsoleError (u16 "Error generating code improvement:")
                 (LogThrown (Rejected reason))],
   inl (Error FAILED)).
Proof.
  intros H. unfold call, getUIImprovementFromCode, generateContent.
  fold prompt. rewrite H. reflexivity.
Qed.

Lemma call_accepted (text : jsstring) (members : list (jsstring * jsval)) :
  backend prompt = Resolves text ->
  JSON_parse (trim text) = Some (VObject members) ->
  strict_eq_string (language_of members) (u16 "tsx")
  || strict_eq_string (language_of members) (u16 "html") = true ->
  call = ([GenerateContent MODEL prompt], inr (VObject members)).
Proof.
  intros Hb Hp Hl. unfold call, getUIImprovementFromCode, generateContent.
  fold prompt. rewrite Hb.
  destruct (object_passes_brace_test _ _ Hp) as [Hs He].
  cbn [emit bind ret try_catch throw]. rewrite Hs, He.
  unfold JSON_parse_exec. rewrite Hp.
  cbn [emit bind ret try_catch throw get_property andb].
  fold (language_of members).
  rewrite <- negb_orb, Hl. reflexivity.
Qed.

(** The three ways in which the [try] block turns a reply down.  Each has
    its own thrown value, which the [catch] block logs and replaces. *)
Lemma call_invalid_language (text : jsstring)
    (members : list (jsstring * jsval)) :
  backend prompt = Resolves text ->
  JSON_parse (trim text) = Some (VObject members) ->
  strict_eq_string (language_of members) (u16 "tsx")
  || strict_eq_string (language_of members) (u16 "html") = false ->
  call =
  ([GenerateContent MODEL prompt;
    ConsoleError (u16 "Error generating code improvement:")
                 (LogThrown (Error INVALID_LANGUAGE))],
   inl (Error FAILED)).
Proof.
  intros Hb Hp Hl. unfold call, getUIImprovementFromCode, generateContent.
  fold prompt. rewrite Hb.
  destruct (object_passes_brace_test _ _ Hp) as [Hs He].
  cbn [emit bind ret try_catch throw]. rewrite Hs, He.
  unfold JSON_parse_exec. rewrite Hp.
  cbn [emit bind ret try_catch throw get_property andb].
  fold (language_of members).
  rewrite <- negb_orb, Hl. reflexivity.
Qed.

Lemma call_not_braced (text : jsstring) :
  backend prompt = Resolves text ->
  startsWith LBRACE (trim text) && endsWith RBRACE (trim text) = false ->
  call =
  ([GenerateContent MODEL prompt;
    ConsoleError (u16 "Received non-JSON response:") (LogString (trim text));
    ConsoleError (u16 "Error generating code improvement:")
                 (LogThrown (Error INVALID_RESPONSE))],
   inl (Error FAILED)).
Proof.
  intros Hb Ht. unfold call, getUIImprovementFromCode, generateContent.
  fold prompt. rewrite Hb.
  cbn [emit bind ret try_catch throw]. rewrite Ht. reflexivity.
Qed.

Lemma call_syntax_error (text : jsstring) :
  backend prompt = Resolves text ->
  startsWith LBRACE (trim text) && endsWith RBRACE (trim text) = true ->
  JSON_parse (trim text) = None ->
  call =
  ([GenerateContent MODEL prompt;
    ConsoleError (u16 "Error generating code improvement:")
                 (LogThrown (Raised (JsonSyntaxError (trim text))))],
   inl (Error FAILED)).
Proof.
  intros Hb Ht Hp. unfold call, getUIImprovementFromCode, generateContent.
  fold prompt. rewrite Hb.
  cbn [emit bind ret try_catch throw]. rewrite Ht.
  unfold JSON_parse_exec. rewrite Hp. reflexivity.
Qed.

(** Whatever happens inside the [try] block, the only value the client
    ever throws is the error built in its [catch] block. *)
Lemma call_throws_FAILED (t : thrown) :
  snd call = inl t -> t = Error FAILED.
Proof.
  unfold call, getUIImprovementFromCode, generateContent. fold prompt.
  destruct (backend prompt) as [text|reason];
    cbn [emit bind ret try_catch throw snd]; [|congruence].
  destruct (startsWith LBRACE (trim text) && endsWith RBRACE (trim text));
    cbn [emit bind ret try_catch throw snd]; [|congruence].
  unfold JSON_parse_exec. destruct (JSON_parse (trim text)) as [v|];
    cbn [emit bind ret try_catch throw snd]; [|congruence].
  destruct v; cbn [get_property emit bind ret try_catch throw snd];
    try congruence;
    match goal with
    | |- context [if ?b then _ else _] =>
        destruct b; cbn [emit bind ret try_catch throw snd]; congruence
    end.
Qed.

(** The client returns only what [JSON.parse] made of the trimmed reply,
    and only when that is an object whose [language] is one of the two
    tags. *)
Lemma call_returns (v : jsval) :
  snd call = inr v ->
  exists text members,
    backend prompt = Resolves text /\
    v = VObject members /\
    JSON_parse (trim text) = Some (VObject members) /\
    strict_eq_string (language_of members) (u16 "tsx")
    || strict_eq_string (language_of members) (u16 "html") = true.
Proof.
  unfold call, getUIImprovementFromCode, generateContent. fold prompt.
  destruct (backend prompt) as [text|reason] eqn:Hb;
    cbn [emit bind ret try_catch throw snd]; [|discriminate].
  destruct (startsWith LBRACE (trim text) && endsWith RBRACE (trim text));
    cbn [emit bind ret try_catch throw snd]; [|discriminate].
  unfold JSON_parse_exec. destruct (JSON_parse (trim text)) as [w|] eqn:Ep;
    cbn [emit bind ret try_catch throw snd]; [|discriminate].
  destruct w; cbn [get_property emit bind ret try_catch throw snd];
    try discriminate;
    match goal with
    | |- context [if ?b then _ else _] =>
        destruct b eqn:Eb; cbn [emit bind ret try_catch throw snd];
        try discriminate
    end.
  intros [= <-]. exists text, members.
  split; [reflexivity|]. split; [reflexivity|]. split; [exact Ep|].
  fold (language_of members) in Eb. rewrite <- negb_orb in Eb.
  now apply negb_false_iff in Eb.
Qed.

(** Exactly one request goes out per call. *)
Lemma call_one_request :
  filter is_network_call (fst call) = [GenerateContent MODEL prompt].
Proof.
  unfold call, getUIImprovementFromCode, generateContent. fold prompt.
  destruct (backend prompt) as [text|reason];
    cbn [emit bind ret try_catch throw fst app filter is_network_call];
    [|reflexivity].
  destruct (startsWith LBRACE (trim text) && endsWith RBRACE (trim text));
    cbn [emit bind ret try_catch throw fst app filter is_network_call];
    [|reflexivity].
  unfold JSON_parse_exec. destruct (JSON_parse (trim text)) as [w|];
    cbn [emit bind ret try_catch throw fst app filter is_network_call];
    [|reflexivity].
  destruct w;
    cbn [get_property emit bind ret try_catch throw fst app filter
         is_network_call];
    try reflexivity;
    match goal with
    | |- context [if ?b then _ else _] =>
        destruct b;
        cbn [emit bind ret try_catch throw fst app filter is_network_call];
        reflexivity
    end.
Qed.

End ClientFacts.

(** ** The submit handler *)

Section HandlerFacts.

Variable backend : jsstring -> reply.
Variable engine_message : engine_error -> jsstring.
Variable st : State.

Let call : Exec jsval :=
  getUIImprovementFromCode backend
    (userCode st) (refactorPrompt st) (stylePrompt st).

(** The state at the [await]. *)
Let pending : State :=
  setDependencies (VArray [])
    (setExplanation (VString [])
    (setImprovedCode (VString [])
    (setError None
    (setIsLoading true st)))).

Lemma handleSubmit_guarded :
  is_empty (trim (userCode st)) = true ->
  handleSubmit backend engine_message st
  = mkRun [setError (Some EMPTY_CODE) st] [].
Proof.
  intros H. unfold handleSubmit, handleSubmit_enter. now rewrite H.
Qed.

Lemma handleSubmit_awaits :
  is_empty (trim (userCode st)) = false ->
  handleSubmit_enter st = inr pending /\
  handleSubmit backend engine_message st
  = mkRun [pending; handleSubmit_resume engine_message (snd call) pending]
          (fst call).
Proof.
  intros H. unfold handleSubmit, handleSubmit_enter. rewrite H.
  split; [reflexivity|]. fold pending. fold call. now destruct call.
Qed.

Lemma resume_thrown (e : thrown) :
  handleSubmit_resume engine_message (inl e) pending
  = setIsLoading false
      (setError (Some (or_else (message_of engine_message e) UNEXPECTED))
                pending).
Proof. reflexivity. Qed.


(** A submit that reaches the client and is thrown at ends in Failed with
    the client's one message. *)
Lemma handleSubmit_failed :
  is_empty (trim (userCode st)) = false ->
  (exists t, snd call = inl t) ->
  let st' := final st (handleSubmit backend engine_message st) in
  error st' = Some FAILED /\ requestState st' = Failed FAILED.
Proof.
  intros H (t & Ht). destruct (handleSubmit_awaits H) as [_ ->].
  rewrite Ht. rewrite (call_throws_FAILED _ _ _ _ _ Ht).
  split; reflexivity.
Qed.

End HandlerFacts.

(** ** The preview documents *)

Section PreviewFacts.

Lemma prefixb_before (c : N) (p s b : jsstring) :
  ~ In c p -> prefixb p (s ++ c :: b) = prefixb p s.
Proof.
  revert s; induction p as [|x p IH]; intros s Hc; [now destruct s|].
  assert (Hx : (x =? c) = false).
  { apply N.eqb_neq. intros ->. apply Hc. now left. }
  destruct s as [|d s]; simpl.
  - now rewrite Hx.
  - rewrite IH; [reflexivity|]. intros H. apply Hc. now right.
Qed.

(** An occurrence of [needle] cannot straddle a unit that [needle] does
    not contain. *)
Lemma occurrences_app_sep (c : N) (needle a b : jsstring) :
  needle <> [] -> ~ In c needle ->
  occurrences needle (a ++ c :: b)
  = (occurrences needle a + occurrences needle b)%nat.
Proof.
  intros Hne Hc. induction a as [|d a IH].
  - destruct needle as [|x r]; [congruence|]. simpl.
    assert (Hx : (x =? c) = false).
    { apply N.eqb_neq. intros ->. apply Hc. now left. }
    now rewrite Hx.
  - change ((d :: a) ++ c :: b) with (d :: (a ++ c :: b)).
    cbn [occurrences]. rewrite IH.
    change (d :: a ++ c :: b) with ((d :: a) ++ c :: b).
    rewrite (prefixb_before c needle (d :: a) b Hc). lia.
Qed.

(** Nor can it start inside a run of another unit. *)
Lemma occurrences_after_pad (needle s : jsstring) (n : nat) :
  needle <> [] -> hd 0 needle <> 32 ->
  occurrences needle (repeat 32 n ++ s) = occurrences needle s.
Proof.
  intros Hne Hh. destruct needle as [|x r]; [congruence|]. simpl in Hh.
  apply N.eqb_neq in Hh.
  induction n as [|n IH]; [reflexivity|].
  cbn [repeat app occurrences prefixb]. now rewrite Hh, IH.
Qed.

Lemma occurrences_indented_line (needle a code b : jsstring) (n : nat) :
  needle <> [] -> ~ In LF needle -> hd 0 needle <> 32 ->
  occurrences needle (a ++ LF :: repeat 32 n ++ code ++ LF :: b)
  = Nat.add (occurrences needle (a ++ LF :: repeat 32 n ++ LF :: b))
            (occurrences needle code).
Proof.
  intros Hne Hlf Hh.
  rewrite !(occurrences_app_sep LF needle a) by assumption.
  rewrite !occurrences_after_pad by assumption.
  rewrite (occurrences_app_sep LF needle code) by assumption.
  pose proof (occurrences_app_sep LF needle [] b Hne Hlf) as E.
  cbn [app] in E. rewrite E.
  assert (E0 : occurrences needle [] = 0%nat)
    by (destruct needle; [congruence | reflexivity]).
  rewrite E0. lia.
Qed.

Lemma html_document_split (theme : Theme) :
  exists head : jsstring,
    forall code : jsstring,
      iframeContent code (VString (u16 "html")) theme
      = head ++ u16 "<body>" ++ LF :: repeat 32 24 ++ code
        ++ LF :: repeat 32 20 ++ u16 "</body>"
        ++ LF :: repeat 32 16 ++ u16 "</html>" ++ LF :: repeat 32 12.
Proof.
  exists (firstn (match theme with Light => 655 | Dark => 667 end)
                 (iframeContent [] (VString (u16 "html")) theme)).
  intros code. destruct theme; vm_compute; reflexivity.
Qed.





End PreviewFacts.

(* ================================================================== *)
(** * The specification's claims *)
(* ================================================================== *)

(** C9.  When the completion call itself fails (the backend rejects the
    request), the form ends in Failed and carries exactly the message
    "Failed to get UI improvement from code. The AI may have been unable to
    process the request." *)
Theorem C9_rejected_call_failed_message
    (backend : jsstring -> reply) (engine_message : engine_error -> jsstring)
    (st : State) (reason : jsstring) :
  is_empty (trim (userCode st)) = false ->
  backend (fullPrompt (userCode st) (refactorPrompt st) (stylePrompt st))
  = Rejects reason ->
  let st' := final st (handleSubmit backend engine_message st) in
  error st' = Some FAILED /\
  requestState st' = Failed FAILED /\
  FAILED = u16 "Failed to get UI improvement from code. The AI may have been unable to process the request.".
Proof.
  intros Hcode Hrej st'.
  destruct (handleSubmit_failed backend engine_message st Hcode) as [He Hr].
  - exists (Error FAILED).
    now rewrite (call_rejected backend _ _ _ reason Hrej).
  - repeat split; assumption.
Qed.

Lemma C9_rejected_call_witness :
  let st := typed "<p>hi</p>" in
  let st' := final st (handleSubmit (rejects "quota exceeded") engine_text st) in
  error st' = Some FAILED /\
  requestState st' = Failed FAILED /\
  FAILED = u16 "Failed to get UI improvement from code. The AI may have been unable to process the request.".
Proof.
  exact (C9_rejected_call_failed_message
           (rejects "quota exceeded") engine_text (typed "<p>hi</p>")
           (u16 "quota exceeded") eq_refl eq_refl).
Defined.

(** C3.  A reply that is one valid JSON object whose [language] is 'tsx' or
    'html' and that has the four schema fields is returned by the client as
    it was parsed: the result is the parsed object, and each schema field
    read from the result is the reply's field. *)
Theorem C3_valid_reply_returned_verbatim
    (backend : jsstring -> reply)
    (userCode refactorPrompt stylePrompt text : jsstring)
    (members : list (jsstring * jsval)) :
  backend (fullPrompt userCode refactorPrompt stylePrompt) = Resolves text ->
  JSON_parse (trim text) = Some (VObject members) ->
  lookup (u16 "language") members = Some (VString (u16 "tsx")) \/
  lookup (u16 "language") members = Some (VString (u16 "html")) ->
  (forall key, In key improvementSchema_required ->
               lookup key members <> None) ->
  exists result,
    getUIImprovementFromCode backend userCode refactorPrompt stylePrompt
    = ([GenerateContent MODEL (fullPrompt userCode refactorPrompt stylePrompt)],
       inr result) /\
    JSON_parse (trim text) = Some result /\
    forall key, In key improvementSchema_required ->
      exists v, lookup key members = Some v /\
                get_property result key = ret v.
Proof.
  intros Hb Hp Hl Hreq. exists (VObject members).
  split; [|split; [exact Hp|]].
  - apply (call_accepted backend _ _ _ text members Hb Hp).
    unfold language_of. destruct Hl as [-> | ->]; reflexivity.
  - intros key Hk. specialize (Hreq key Hk).
    cbn [get_property].
    destruct (lookup key members) as [v|]; [|congruence].
    now exists v.
Qed.

Lemma C3_valid_reply_witness :
  exists result,
    getUIImprovementFromCode
      (replies (reply_text "html" "<p class='p-4'>hi</p>"))
      (u16 "<p>hi</p>") [] (u16 "minimal")
    = ([GenerateContent MODEL (fullPrompt (u16 "<p>hi</p>") [] (u16 "minimal"))],
       inr result) /\
    JSON_parse (trim (reply_text "html" "<p class='p-4'>hi</p>")) = Some result /\
    forall key, In key improvementSchema_required ->
      exists v, lookup key (reply_members "html" "<p class='p-4'>hi</p>") = Some v /\
                get_property result key = ret v.
Proof.
  apply (C3_valid_reply_returned_verbatim
           (replies (reply_text "html" "<p class='p-4'>hi</p>"))
           (u16 "<p>hi</p>") [] (u16 "minimal")
           (reply_text "html" "<p class='p-4'>hi</p>")
           (reply_members "html" "<p class='p-4'>hi</p>")).
  - reflexivity.
  - vm_compute. reflexivity.
  - right. vm_compute. reflexivity.
  - intros key [<-|[<-|[<-|[<-|[]]]]]; vm_compute; discriminate.
Defined.

(** C1 (what the code does at a reply with an unknown language tag).  The
    reply is a JSON object whose [language] is 'jsx'.  The client builds the
    "AI returned an invalid language type." error, but its own [catch]
    block logs it and throws the general failure instead; the form ends in
    Failed with the general message, and never in Succeeded. *)
Theorem C1_invalid_language_replaced_by_general_failure
    (engine_message : engine_error -> jsstring) :
  let text := reply_text "jsx" "<p>hi</p>" in
  let st := typed "<p>hi</p>" in
  let run := handleSubmit (replies text) engine_message st in
  JSON_parse (trim text) = Some (VObject (reply_members "jsx" "<p>hi</p>")) /\
  events run
  = [GenerateContent MODEL (fullPrompt (u16 "<p>hi</p>") [] []);
     ConsoleError (u16 "Error generating code improvement:")
                  (LogThrown (Error INVALID_LANGUAGE))] /\
  requestState (final st run) = Failed FAILED /\
  FAILED <> INVALID_LANGUAGE.
Proof.
  vm_compute. repeat split; discriminate.
Qed.

(** C2 (what the code does at replies that are not one JSON object).  For a
    reply with leading prose, and for one cut off before its closing brace,
    the client builds the "Received an invalid response from the AI..."
    error; for a braced reply that is not valid JSON [JSON.parse] throws.
    In all three cases the [catch] block throws the general failure
    instead, and the form ends in Failed with the general message. *)
Theorem C2_invalid_response_replaced_by_general_failure
    (engine_message : engine_error -> jsstring) :
  let st := typed "<p>hi</p>" in
  let prose := u16 "Here is the result: " ++ reply_text "html" "<p>hi</p>" in
  let truncated := LBRACE :: member "language" (quoted "html") in
  let malformed := LBRACE :: member "language" (quoted "html") ++ [COMMA; RBRACE] in
  let run1 := handleSubmit (replies prose) engine_message st in
  let run2 := handleSubmit (replies truncated) engine_message st in
  let run3 := handleSubmit (replies malformed) engine_message st in
  events run1
  = [GenerateContent MODEL (fullPrompt (u16 "<p>hi</p>") [] []);
     ConsoleError (u16 "Received non-JSON response:") (LogString prose);
     ConsoleError (u16 "Error generating code improvement:")
                  (LogThrown (Error INVALID_RESPONSE))] /\
  requestState (final st run1) = Failed FAILED /\
  events run2
  = [GenerateContent MODEL (fullPrompt (u16 "<p>hi</p>") [] []);
     ConsoleError (u16 "Received non-JSON response:") (LogString truncated);
     ConsoleError (u16 "Error generating code improvement:")
                  (LogThrown (Error INVALID_RESPONSE))] /\
  requestState (final st run2) = Failed FAILED /\
  events run3
  = [GenerateContent MODEL (fullPrompt (u16 "<p>hi</p>") [] []);
     ConsoleError (u16 "Error generating code improvement:")
                  (LogThrown (Raised (JsonSyntaxError malformed)))] /\
  requestState (final st run3) = Failed FAILED /\
  FAILED <> INVALID_RESPONSE.
Proof.
  vm_compute. repeat split; discriminate.
Qed.

(** C4, as stated, fails: after a markup result the detected language is
    'html', and the state at the [await] of the next submit still holds
    'html' rather than the initial 'tsx'. *)
Lemma C4_language_survives_submit :
  is_empty (trim (userCode after_html_result)) = false /\
  language after_html_result = VString (u16 "html") /\
  exists p,
    handleSubmit_enter after_html_result = inr p /\
    isLoading p = true /\
    language p = VString (u16 "html") /\
    language p <> language initial.
Proof.
  split; [reflexivity|]. split; [reflexivity|].
  eexists. split; [reflexivity|]. split; [reflexivity|].
  split; [reflexivity | discriminate].
Qed.

(** C4, amended.  On a submit whose trimmed source code is not empty, the
    state at the [await] (the first state the handler commits, before the
    client is called) has the rewritten code, the explanation, the
    dependencies and the error reset, is loading, and leaves the detected
    language as it was; the output pane then shows the loading skeleton
    only, without the tab bar, so nothing of a prior result is rendered
    while Pending. *)
Theorem C4_pending_resets_result_keeps_language
    (backend : jsstring -> reply) (engine_message : engine_error -> jsstring)
    (st : State) :
  is_empty (trim (userCode st)) = false ->
  exists p rest,
    handleSubmit_enter st = inr p /\
    committed (handleSubmit backend engine_message st) = p :: rest /\
    improvedCode p = VString [] /\
    explanation p = VString [] /\
    dependencies p = VArray [] /\
    error p = None /\
    isLoading p = true /\
    language p = language st /\
    requestState p = Pending /\
    (forall theme tab, output p theme tab = LoadingSkeleton) /\
    tab_bar_shown (improvedCode p) (isLoading p) (error p) = false.
Proof.
  intros H.
  destruct (handleSubmit_awaits backend engine_message st H) as [He Hr].
  eexists. eexists. split; [exact He|].
  split; [rewrite Hr; reflexivity|].
  repeat split.
Qed.

Lemma C4_pending_witness :
  exists p rest,
    handleSubmit_enter after_html_result = inr p /\
    committed (handleSubmit (rejects "offline") engine_text after_html_result)
    = p :: rest /\
    improvedCode p = VString [] /\
    explanation p = VString [] /\
    dependencies p = VArray [] /\
    error p = None /\
    isLoading p = true /\
    language p = language after_html_result /\
    requestState p = Pending /\
    (forall theme tab, output p theme tab = LoadingSkeleton) /\
    tab_bar_shown (improvedCode p) (isLoading p) (error p) = false.
Proof.
  exact (C4_pending_resets_result_keeps_language
           (rejects "offline") engine_text after_html_result eq_refl).
Defined.

(** C5, as stated, fails: the source code " " is not empty and no request is
    pending, the button is enabled, yet the submit never enters Pending and
    calls nothing. *)
Lemma C5_blank_code_is_not_submitted :
  let st := typed " " in
  let run := handleSubmit (replies (reply_text "html" "<p>hi</p>")) engine_text st in
  is_empty (userCode st) = false /\
  isLoading st = false /\
  submit_disabled st = false /\
  entries_to_pending st (committed run) = 0%nat /\
  network_calls run = 0%nat.
Proof. repeat split. Qed.

(** C5, amended.  With no request pending, a submit whose trimmed source
    code is empty is stopped by the guard: the client is not called, the
    validation message is stored and shown, Pending is not entered.  A
    submit whose trimmed source code is not empty enters Pending exactly
    once, calls the backend exactly once, and is settled at the end. *)
Theorem C5_guard_then_single_pending
    (backend : jsstring -> reply) (engine_message : engine_error -> jsstring)
    (st : State) :
  isLoading st = false ->
  let run := handleSubmit backend engine_message st in
  if is_empty (trim (userCode st)) then
    run = mkRun [setError (Some EMPTY_CODE) st] [] /\
    network_calls run = 0%nat /\
    entries_to_pending st (committed run) = 0%nat /\
    error (final st run) = Some EMPTY_CODE /\
    (forall theme tab, output (final st run) theme tab = ErrorPanel EMPTY_CODE)
  else
    entries_to_pending st (committed run) = 1%nat /\
    network_calls run = 1%nat /\
    exists p settled,
      committed run = [p; settled] /\
      requestState p = Pending /\
      submit_disabled p = true /\
      isLoading settled = false.
Proof.
  intros Hidle run. subst run.
  destruct (is_empty (trim (userCode st))) eqn:E.
  - rewrite (handleSubmit_guarded backend engine_message st E).
    unfold network_calls, final, output, renderContent.
    cbn [committed events last entries_to_pending filter List.length].
    unfold is_pending, setError. cbn [isLoading error improvedCode].
    rewrite Hidle. repeat split.
  - destruct (handleSubmit_awaits backend engine_message st E) as [_ ->].
    unfold network_calls. cbn [events committed].
    rewrite call_one_request.
    split; [|split; [reflexivity|]].
    + cbn [entries_to_pending]. unfold is_pending. rewrite Hidle. reflexivity.
    + eexists. eexists. split; [reflexivity|]. split; [reflexivity|].
      split; [apply orb_true_r | reflexivity].
Qed.

Lemma C5_guard_then_single_pending_witness :
  (let st := typed "<p>hi</p>" in
   let run := handleSubmit (replies (reply_text "html" "<p>ok</p>")) engine_text st in
   entries_to_pending st (committed run) = 1%nat /\
   network_calls run = 1%nat /\
   exists p settled,
     committed run = [p; settled] /\
     requestState p = Pending /\
     submit_disabled p = true /\
     isLoading settled = false)
  /\
  (let st := initial in
   let run := handleSubmit (replies (reply_text "html" "<p>ok</p>")) engine_text st in
   run = mkRun [setError (Some EMPTY_CODE) st] [] /\
   network_calls run = 0%nat /\
   entries_to_pending st (committed run) = 0%nat /\
   error (final st run) = Some EMPTY_CODE /\
   (forall theme tab, output (final st run) theme tab = ErrorPanel EMPTY_CODE)).
Proof.
  split.
  - exact (C5_guard_then_single_pending
             (replies (reply_text "html" "<p>ok</p>")) engine_text
             (typed "<p>hi</p>") eq_refl).
  - exact (C5_guard_then_single_pending
             (replies (reply_text "html" "<p>ok</p>")) engine_text
             initial eq_refl).
Defined.

(** C10.  Source code that is not empty but consists of white space only is
    rejected like empty source code: the guard tests the trimmed text,
    stores the validation message, does not enter Pending and calls
    nothing. *)
Theorem C10_blank_code_rejected_like_empty
    (backend : jsstring -> reply) (engine_message : engine_error -> jsstring)
    (st : State) :
  userCode st <> [] ->
  Forall (fun c => is_js_whitespace c = true) (userCode st) ->
  let run := handleSubmit backend engine_message st in
  let empty := setUserCode [] st in
  run = mkRun [setError (Some EMPTY_CODE) st] [] /\
  network_calls run = 0%nat /\
  entries_to_pending st (committed run) = 0%nat /\
  isLoading (final st run) = isLoading st /\
  error (final st run) = Some EMPTY_CODE /\
  error (final st run)
  = error (final empty (handleSubmit backend engine_message empty)).
Proof.
  intros _ Hws run empty. subst run.
  assert (E : is_empty (trim (userCode st)) = true)
    by now rewrite (trim_all_ws _ Hws).
  rewrite (handleSubmit_guarded backend engine_message st E).
  unfold network_calls, final.
  cbn [committed events last entries_to_pending filter List.length].
  unfold is_pending, setError. cbn [isLoading error].
  destruct (isLoading st); repeat split.
Qed.

Lemma C10_blank_code_witness :
  let st := typed "  " in
  let run := handleSubmit (replies (reply_text "html" "<p>ok</p>")) engine_text st in
  let empty := setUserCode [] st in
  userCode st <> [] /\
  (run = mkRun [setError (Some EMPTY_CODE) st] [] /\
   network_calls run = 0%nat /\
   entries_to_pending st (committed run) = 0%nat /\
   isLoading (final st run) = isLoading st /\
   error (final st run) = Some EMPTY_CODE /\
   error (final st run)
   = error (final empty
              (handleSubmit (replies (reply_text "html" "<p>ok</p>"))
                            engine_text empty))).
Proof.
  split; [discriminate|].
  apply (C10_blank_code_rejected_like_empty
           (replies (reply_text "html" "<p>ok</p>")) engine_text (typed "  ")).
  - discriminate.
  - repeat constructor.
Defined.

(** C6.  The prompt composer is a function of its three inputs alone: equal
    inputs give the same bundle.  The bundle carries the source code
    unchanged between two fence lines, carries each instruction between
    double quotes, and puts the fixed placeholder ("No specific request
    provided...", "No specific style provided...") in the place of an empty
    instruction. *)
Theorem C6_prompt_composer
    (code1 refactor1 style1 code2 refactor2 style2 : jsstring) :
  code1 = code2 -> refactor1 = refactor2 -> style1 = style2 ->
  fullPrompt code1 refactor1 style1 = fullPrompt code2 refactor2 style2
  /\ (exists head tail, forall code refactor style,
        fullPrompt code refactor style
        = head ++ (u16 "```" ++ LF :: u16 "      ") ++ code
               ++ (LF :: u16 "      ```") ++ tail refactor style)
  /\ (exists before between after, forall code refactor style,
        fullPrompt code refactor style
        = before code
          ++ QUOTE :: or_else refactor NO_REQUEST ++ QUOTE :: between
          ++ QUOTE :: or_else style NO_STYLE ++ QUOTE :: after)
  /\ (forall code style,
        fullPrompt code [] style = fullPrompt code NO_REQUEST style)
  /\ (forall code refactor,
        fullPrompt code refactor [] = fullPrompt code refactor NO_STYLE)
  /\ (forall refactor, refactor <> [] -> or_else refactor NO_REQUEST = refactor)
  /\ prefixb (u16 "No specific request provided") NO_REQUEST = true
  /\ prefixb (u16 "No specific style provided") NO_STYLE = true.
Proof.
  intros -> -> ->. split; [reflexivity|].
  split.
  { exists (firstn 214 (fullPrompt [] [] [])).
    exists (fun refactor style => skipn 234 (fullPrompt [] refactor style)).
    intros code refactor style. vm_compute. reflexivity. }
  split.
  { exists (fun code =>
              firstn 214 (fullPrompt [] [] [])
              ++ (u16 "```" ++ LF :: u16 "      ") ++ code
              ++ (LF :: u16 "      ```")
              ++ firstn 55 (skipn 234 (fullPrompt [] [] []))).
    exists (firstn 39
              (skipn (234 + 55 + 2 + List.length NO_REQUEST)
                     (fullPrompt [] [] []))).
    exists (skipn (234 + 55 + 2 + List.length NO_REQUEST
                   + 39 + 2 + List.length NO_STYLE)
                  (fullPrompt [] [] [])).
    intros code refactor style.
    unfold fullPrompt at 1. cbn [lines]. rewrite <- !app_assoc.
    vm_compute. reflexivity. }
  split; [reflexivity|]. split; [reflexivity|].
  split; [|split; reflexivity].
  intros [|c r] H; [congruence | reflexivity].
Qed.

Lemma C6_prompt_composer_witness :
  fullPrompt (u16 "<button>Click</button>") [] (u16 "minimal")
  = fullPrompt (u16 "<button>Click</button>") NO_REQUEST (u16 "minimal").
Proof.
  destruct (C6_prompt_composer
              (u16 "<button>Click</button>") [] (u16 "minimal")
              (u16 "<button>Click</button>") [] (u16 "minimal")
              eq_refl eq_refl eq_refl) as (_ & _ & _ & H & _).
  exact (H (u16 "<button>Click</button>") (u16 "minimal")).
Defined.




(** C8, as stated for every 'html' result, fails: the rewritten markup is
    spliced into the document as it is, so a result whose markup carries
    a script element makes the preview document load that script too,
    here the component runtime. *)
Lemma C8_markup_can_load_the_runtime :
  let st := typed "<p>hi</p>" in
  let st' :=
    final st (handleSubmit (replies (reply_text "html" markup_with_script))
                           engine_text st) in
  language st' = VString (u16 "html")
  /\ error st' = None
  /\ exists doc,
       LivePreview_srcDoc (improvedCode st') (language st') Light = Some doc
       /\ occurrences (u16 "<script src=") doc = 2%nat
       /\ includes (u16 "https://unpkg.com/react@18/umd/react.development.js")
                   doc = true.
Proof.
  cbv zeta. split; [vm_compute; reflexivity|].
  split; [vm_compute; reflexivity|].
  eexists. split; [vm_compute; reflexivity|].
  split; vm_compute; reflexivity.
Qed.

(** C8, amended.  For an 'html' result the preview document is the markup
    template with the rewritten markup alone on the line between the body
    tags.  The template itself holds two script elements, the
    utility-class styling engine and its one-line configuration, and
    mentions neither the component runtime, its DOM binding, the source
    transformer, a mount call, the [RefactoredComponent] test nor a
    [try] block.  Whatever else the document holds comes with the markup:
    for a search text that has no line feed and does not start with a
    space, the occurrences in the document are those in the template plus
    those in the markup. *)
Theorem C8_html_preview_plain_template (theme : Theme) :
  let html := VString (u16 "html") in
  let template := iframeContent [] html theme in
  (exists head : jsstring,
     forall code : jsstring,
       iframeContent code html theme
       = head ++ u16 "<body>" ++ LF :: repeat 32 24 ++ code
         ++ LF :: repeat 32 20 ++ u16 "</body>"
         ++ LF :: repeat 32 16 ++ u16 "</html>" ++ LF :: repeat 32 12)
  /\ occurrences (u16 "<script") template = 2%nat
  /\ occurrences
       (u16 "<script src=" ++ QUOTE :: u16 "https://cdn.tailwindcss.com"
        ++ QUOTE :: u16 "></script>") template = 1%nat
  /\ occurrences
       (u16 "<script>" ++ LF :: repeat 32 28
        ++ u16 "tailwind.config = { darkMode: 'class' }"
        ++ LF :: repeat 32 24 ++ u16 "</script>") template = 1%nat
  /\ Forall (fun needle => includes needle template = false)
       [u16 "react"; u16 "React"; u16 "babel"; u16 "unpkg";
        u16 "createRoot"; u16 "render"; u16 "typeof";
        u16 "RefactoredComponent"; u16 "getElementById"; u16 "try";
        u16 "catch"]
  /\ (forall needle code : jsstring,
        needle <> [] -> ~ In LF needle -> hd 0 needle <> 32 ->
        occurrences needle (iframeContent code html theme)
        = (occurrences needle template + occurrences needle code)%nat).
Proof.
  intros html template.
  destruct (html_document_split theme) as (head & Hhead).
  split; [exists head; exact Hhead|].
  split; [destruct theme; vm_compute; reflexivity|].
  split; [destruct theme; vm_compute; reflexivity|].
  split; [destruct theme; vm_compute; reflexivity|].
  split.
  { destruct theme; repeat (apply Forall_cons || apply Forall_nil);
      vm_compute; reflexivity. }
  intros needle code Hne Hlf Hh. subst template html.
  rewrite (Hhead code), (Hhead []).
  rewrite !(app_assoc head).
  exact (occurrences_indented_line needle _ code _ 24 Hne Hlf Hh).
Qed.

Lemma C8_html_preview_witness :
  occurrences (u16 "<script")
    (iframeContent (u16 markup_with_script) (VString (u16 "html")) Dark)
  = (2 + 1)%nat.
Proof.
  destruct (C8_html_preview_plain_template Dark) as (_ & H2 & _ & _ & _ & H).
  rewrite (H (u16 "<script") (u16 markup_with_script)
             ltac:(discriminate)
             ltac:(vm_compute; intuition discriminate)
             ltac:(vm_compute; discriminate)).
  cbv zeta in H2. rewrite H2. vm_compute. reflexivity.
Defined.

(* ================================================================== *)
(** * Further properties of the code *)
(* ================================================================== *)

(** ** Auxiliary facts *)

Section MoreStringFacts.

Lemma strict_eq_string_true (v : jsval) (lit : jsstring) :
  strict_eq_string v lit = true <-> v = VString lit.
Proof.
  split.
  - destruct v; simpl; try discriminate.
    intros H. apply eqb_eq in H. now subst.
  - intros ->. simpl. apply eqb_refl.
Qed.

Lemma trimStart_drops_pad (w t : jsstring) :
  Forall (fun c => is_js_whitespace c = true) w ->
  trimStart (w ++ t) = trimStart t.
Proof.
  induction 1 as [|c w Hc _ IH]; simpl; [reflexivity|]. now rewrite Hc.
Qed.

Lemma trimStart_app_pad (t w : jsstring) :
  Forall (fun c => is_js_whitespace c = true) w ->
  trimStart (t ++ w) = trimStart t ++ w \/
  (trimStart t = [] /\ trimStart (t ++ w) = []).
Proof.
  intros Hw. induction t as [|c t IH]; simpl.
  - right. split; [reflexivity | now apply trimStart_all_ws].
  - destruct (is_js_whitespace c); [exact IH | now left].
Qed.

Lemma trimEnd_drops_pad (t w : jsstring) :
  Forall (fun c => is_js_whitespace c = true) w ->
  trimEnd (t ++ w) = trimEnd t.
Proof.
  intros Hw. unfold trimEnd. rewrite rev_app_distr.
  rewrite trimStart_drops_pad; [reflexivity|].
  now apply Forall_rev.
Qed.

(** White space around a text does not change what [trim] returns. *)
Lemma trim_padded (w1 t w2 : jsstring) :
  Forall (fun c => is_js_whitespace c = true) w1 ->
  Forall (fun c => is_js_whitespace c = true) w2 ->
  trim (w1 ++ t ++ w2) = trim t.
Proof.
  intros H1 H2. unfold trim. rewrite (trimStart_drops_pad _ _ H1).
  destruct (trimStart_app_pad t w2 H2) as [-> | [E ->]].
  - now apply trimEnd_drops_pad.
  - now rewrite E.
Qed.

End MoreStringFacts.

(** ** The completion client *)

(** Whatever the backend does, the only value [getUIImprovementFromCode]
    throws is the error with the general failure message; the two specific
    errors built in its [try] block never reach a caller. *)
Theorem client_throws_only_the_general_failure
    (backend : jsstring -> reply)
    (userCode refactorPrompt stylePrompt : jsstring) (t : thrown) :
  snd (getUIImprovementFromCode backend userCode refactorPrompt stylePrompt)
  = inl t ->
  t = Error FAILED /\
  t <> Error INVALID_LANGUAGE /\
  t <> Error INVALID_RESPONSE /\
  (forall e, t <> Raised e) /\
  (forall reason, t <> Rejected reason).
Proof.
  intros H. apply call_throws_FAILED in H. subst t.
  repeat split; try discriminate; intros; discriminate.
Qed.

Lemma client_throws_only_the_general_failure_witness :
  Error FAILED = Error FAILED /\
  Error FAILED <> Error INVALID_LANGUAGE /\
  Error FAILED <> Error INVALID_RESPONSE /\
  (forall e, Error FAILED <> Raised e) /\
  (forall reason, Error FAILED <> Rejected reason).
Proof.
  exact (client_throws_only_the_general_failure
           (replies (reply_text "jsx" "<p>hi</p>"))
           (u16 "<p>hi</p>") [] [] (Error FAILED)
           ltac:(vm_compute; reflexivity)).
Defined.

Lemma call_returns_object
    (backend : jsstring -> reply)
    (userCode refactorPrompt stylePrompt : jsstring) (result : jsval) :
  snd (getUIImprovementFromCode backend userCode refactorPrompt stylePrompt)
  = inr result ->
  exists text members,
    backend (fullPrompt userCode refactorPrompt stylePrompt) = Resolves text /\
    JSON_parse (trim text) = Some result /\
    result = VObject members /\
    (lookup (u16 "language") members = Some (VString (u16 "tsx")) \/
     lookup (u16 "language") members = Some (VString (u16 "html"))).
Proof.
  intros H. apply call_returns in H.
  destruct H as (text & members & Hb & -> & Hp & Hl).
  exists text, members. repeat split; try assumption.
  unfold language_of in Hl. apply orb_true_iff in Hl.
  destruct (lookup (u16 "language") members) as [w|].
  - destruct Hl as [Hl|Hl]; apply strict_eq_string_true in Hl; subst w; auto.
  - destruct Hl; discriminate.
Qed.

(** What the client returns is always the object that [JSON.parse] made of
    the trimmed reply, and its [language] is 'tsx' or 'html': a JSON array,
    string, number or literal is never returned. *)
Theorem client_result_is_a_validated_object
    (backend : jsstring -> reply)
    (userCode refactorPrompt stylePrompt : jsstring) (result : jsval) :
  snd (getUIImprovementFromCode backend userCode refactorPrompt stylePrompt)
  = inr result ->
  exists text members,
    backend (fullPrompt userCode refactorPrompt stylePrompt) = Resolves text /\
    JSON_parse (trim text) = Some result /\
    result = VObject members /\
    (lookup (u16 "language") members = Some (VString (u16 "tsx")) \/
     lookup (u16 "language") members = Some (VString (u16 "html"))).
Proof. exact (call_returns_object backend userCode refactorPrompt stylePrompt result). Qed.

Lemma client_result_is_a_validated_object_witness :
  exists text members,
    replies (reply_text "tsx" "function RefactoredComponent() {}")
            (fullPrompt (u16 "function A() {}") [] [])
    = Resolves text /\
    JSON_parse (trim text)
    = Some (VObject (reply_members "tsx" "function RefactoredComponent() {}")) /\
    VObject (reply_members "tsx" "function RefactoredComponent() {}")
    = VObject members /\
    (lookup (u16 "language") members = Some (VString (u16 "tsx")) \/
     lookup (u16 "language") members = Some (VString (u16 "html"))).
Proof.
  exact (client_result_is_a_validated_object
           (replies (reply_text "tsx" "function RefactoredComponent() {}"))
           (u16 "function A() {}") [] []
           (VObject (reply_members "tsx" "function RefactoredComponent() {}"))
           ltac:(vm_compute; reflexivity)).
Defined.

(** White space (spaces, line breaks, a byte-order mark) before and after
    the reply makes no difference: the outcome and the log are the ones of
    the bare reply. *)
Theorem client_ignores_white_space_around_reply
    (backend padded : jsstring -> reply)
    (userCode refactorPrompt stylePrompt text before after : jsstring) :
  Forall (fun c => is_js_whitespace c = true) before ->
  Forall (fun c => is_js_whitespace c = true) after ->
  backend (fullPrompt userCode refactorPrompt stylePrompt) = Resolves text ->
  padded (fullPrompt userCode refactorPrompt stylePrompt)
  = Resolves (before ++ text ++ after) ->
  getUIImprovementFromCode padded userCode refactorPrompt stylePrompt
  = getUIImprovementFromCode backend userCode refactorPrompt stylePrompt.
Proof.
  intros Hb Ha H1 H2. unfold getUIImprovementFromCode, generateContent.
  rewrite H1, H2. cbn [emit bind ret try_catch throw].
  now rewrite (trim_padded _ _ _ Hb Ha).
Qed.

Lemma client_ignores_white_space_around_reply_witness :
  getUIImprovementFromCode
    (replies ([LF; 32] ++ reply_text "html" "<p>ok</p>" ++ [32; LF; 65279]))
    (u16 "<p>hi</p>") [] []
  = getUIImprovementFromCode
      (replies (reply_text "html" "<p>ok</p>")) (u16 "<p>hi</p>") [] [].
Proof.
  apply (client_ignores_white_space_around_reply
           (replies (reply_text "html" "<p>ok</p>"))
           (replies ([LF; 32] ++ reply_text "html" "<p>ok</p>" ++ [32; LF; 65279]))
           (u16 "<p>hi</p>") [] [] (reply_text "html" "<p>ok</p>")
           [LF; 32] [32; LF; 65279]).
  - repeat constructor.
  - repeat constructor.
  - reflexivity.
  - reflexivity.
Defined.

Lemma JSON_parse_braced_is_object (text : jsstring) (v : jsval) :
  startsWith LBRACE text = true ->
  JSON_parse text = Some v ->
  exists members, v = VObject members.
Proof.
  destruct text as [|c r]; [discriminate|]. cbn [startsWith].
  intros Hc. apply N.eqb_eq in Hc. subst c.
  unfold JSON_parse. cbn [parse_value].
  rewrite (skip_ws_id LBRACE r eq_refl).
  replace (LBRACE =? LBRACE) with true by reflexivity. cbv iota.
  destruct (skip_ws r) as [|d r']; [discriminate|].
  destruct (d =? RBRACE).
  - destruct (is_empty (skip_ws r')); [|discriminate].
    intros [= <-]. eauto.
  - destruct (parse_members (List.length (LBRACE :: r)) r) as [| |ms rest];
      cbn [pbind]; try discriminate.
    destruct (is_empty (skip_ws rest)); [|discriminate].
    intros [= <-]. eauto.
Qed.

(** The log of the client names the cause of every failure.  A rejected
    call is logged with the rejection itself; a reply that fails the brace
    test is logged as it was received and then with the
    invalid-response error; a braced reply that [JSON.parse] rejects is
    logged with the syntax error for the trimmed text; a parsed reply,
    which is then always an object, is logged with the invalid-language
    error when its language is neither 'tsx' nor 'html'.  In each of
    these cases the client throws the general failure.  Otherwise it
    returns the parsed object, and the request is the only event. *)
Theorem client_log_names_the_cause
    (backend : jsstring -> reply)
    (userCode refactorPrompt stylePrompt : jsstring) :
  let prompt := fullPrompt userCode refactorPrompt stylePrompt in
  let call :=
    getUIImprovementFromCode backend userCode refactorPrompt stylePrompt in
  let failed_with cause :=
    call
    = ([GenerateContent MODEL prompt;
        ConsoleError (u16 "Error generating code improvement:")
                     (LogThrown cause)],
       inl (Error FAILED)) in
  match backend prompt with
  | Rejects reason => failed_with (Rejected reason)
  | Resolves text =>
      if startsWith LBRACE (trim text) && endsWith RBRACE (trim text) then
        match JSON_parse (trim text) with
        | None => failed_with (Raised (JsonSyntaxError (trim text)))
        | Some result =>
            exists members,
              result = VObject members /\
              (if strict_eq_string (language_of members) (u16 "tsx")
                  || strict_eq_string (language_of members) (u16 "html")
               then call = ([GenerateContent MODEL prompt], inr result)
               else failed_with (Error INVALID_LANGUAGE))
        end
      else
        call
        = ([GenerateContent MODEL prompt;
            ConsoleError (u16 "Received non-JSON response:")
                         (LogString (trim text));
            ConsoleError (u16 "Error generating code improvement:")
                         (LogThrown (Error INVALID_RESPONSE))],
           inl (Error FAILED))
  end.
Proof.
  intros prompt call failed_with. subst failed_with call prompt.
  destruct (backend (fullPrompt userCode refactorPrompt stylePrompt))
    as [text|reason] eqn:Hb.
  2:{ exact (call_rejected backend _ _ _ reason Hb). }
  destruct (startsWith LBRACE (trim text) && endsWith RBRACE (trim text))
    eqn:Ht.
  2:{ exact (call_not_braced backend _ _ _ text Hb Ht). }
  destruct (JSON_parse (trim text)) as [result|] eqn:Hp.
  2:{ exact (call_syntax_error backend _ _ _ text Hb Ht Hp). }
  apply andb_true_iff in Ht. destruct Ht as [Hs _].
  destruct (JSON_parse_braced_is_object _ _ Hs Hp) as (members & ->).
  exists members. split; [reflexivity|].
  destruct (strict_eq_string (language_of members) (u16 "tsx")
            || strict_eq_string (language_of members) (u16 "html")) eqn:Hl.
  - exact (call_accepted backend _ _ _ text members Hb Hp Hl).
  - exact (call_invalid_language backend _ _ _ text members Hb Hp Hl).
Qed.

(** ** The prompt and the preview document *)

Section TemplateFacts.

Lemma fullPrompt_split (code refactor style : jsstring) :
  fullPrompt code refactor style
  = firstn 224 (fullPrompt [] [] []) ++ code
    ++ skipn 224 (fullPrompt [] refactor style).
Proof. vm_compute. reflexivity. Qed.

Lemma iframeContent_split (code : jsstring) (language : jsval)
    (theme : Theme) :
  let at_code :=
    ((if strict_eq_string language (u16 "tsx") then 1386 else 686)
     + (match theme with Dark => 12 | Light => 0 end))%nat in
  iframeContent code language theme
  = firstn at_code (iframeContent [] language theme) ++ code
    ++ skipn at_code (iframeContent [] language theme).
Proof.
  unfold iframeContent.
  destruct (strict_eq_string language (u16 "tsx")), theme;
    vm_compute; reflexivity.
Qed.

Lemma splice_injective (head tail a b : jsstring) :
  head ++ a ++ tail = head ++ b ++ tail -> a = b.
Proof. intros H. apply app_inv_head in H. now apply app_inv_tail in H. Qed.

End TemplateFacts.

(** With the two instructions fixed, the instruction bundle determines the
    source code: two different source codes never give the same bundle. *)
Theorem fullPrompt_determines_the_code
    (code1 code2 refactor style : jsstring) :
  fullPrompt code1 refactor style = fullPrompt code2 refactor style ->
  code1 = code2.
Proof.
  rewrite (fullPrompt_split code1), (fullPrompt_split code2).
  apply splice_injective.
Qed.

Lemma fullPrompt_determines_the_code_witness :
  u16 "<p>hi</p>" = u16 "<p>hi</p>".
Proof.
  exact (fullPrompt_determines_the_code
           (u16 "<p>hi</p>") (u16 "<p>hi</p>") [] (u16 "minimal") eq_refl).
Defined.

(** For a given language and theme the preview document determines the
    code it embeds, in the component template and in the markup template
    alike: a change of the code always changes the document. *)
Theorem iframeContent_determines_the_code
    (code1 code2 : jsstring) (language : jsval) (theme : Theme) :
  iframeContent code1 language theme = iframeContent code2 language theme ->
  code1 = code2.
Proof.
  rewrite (iframeContent_split code1), (iframeContent_split code2).
  apply splice_injective.
Qed.

Lemma iframeContent_determines_the_code_witness :
  u16 "<p>ok</p>" = u16 "<p>ok</p>".
Proof.
  exact (iframeContent_determines_the_code
           (u16 "<p>ok</p>") (u16 "<p>ok</p>") (VString (u16 "html")) Dark
           eq_refl).
Defined.

(** The two themes and the two templates never give the same document,
    whatever code they embed: the dark document carries the class attribute
    [dark] on its root element and the light one does not, and the
    component document differs from the markup document before the code is
    reached. *)
Theorem iframeContent_tells_theme_and_language_apart
    (code1 code2 : jsstring) :
  (forall language1 language2,
     iframeContent code1 language1 Dark
     <> iframeContent code2 language2 Light)
  /\ (forall theme1 theme2,
       iframeContent code1 (VString (u16 "tsx")) theme1
       <> iframeContent code2 (VString (u16 "html")) theme2).
Proof.
  split.
  - intros language1 language2. unfold iframeContent.
    destruct (strict_eq_string language1 (u16 "tsx")),
             (strict_eq_string language2 (u16 "tsx"));
      intros H; apply (f_equal (fun d => nth 23 d 0)) in H;
      vm_compute in H; discriminate.
  - intros theme1 theme2 H.
    destruct theme1, theme2;
      apply (f_equal (firstn 400)) in H; vm_compute in H; discriminate.
Qed.

(** ** The submit handler and the button *)

Section MoreHandlerFacts.

Variable backend : jsstring -> reply.
Variable engine_message : engine_error -> jsstring.
Variable st : State.

Let call : Exec jsval :=
  getUIImprovementFromCode backend
    (userCode st) (refactorPrompt st) (stylePrompt st).

Let pending : State :=
  setDependencies (VArray [])
    (setExplanation (VString [])
    (setImprovedCode (VString [])
    (setError None
    (setIsLoading true st)))).

Let field (members : list (jsstring * jsval)) (key : string) : jsval :=
  match lookup (u16 key) members with Some w => w | None => VUndefined end.

Let stored (members : list (jsstring * jsval)) : State :=
  setIsLoading false
    (setDependencies (field members "dependencies")
    (setLanguage (field members "language")
    (setExplanation (field members "explanation")
    (setImprovedCode (field members "improvedCode") pending)))).

Let failed : State :=
  setIsLoading false (setError (Some FAILED) pending).

(** The three ways a call of [handleSubmit] can go. *)
Lemma handleSubmit_cases :
  (is_empty (trim (userCode st)) = true /\
   handleSubmit backend engine_message st
   = mkRun [setError (Some EMPTY_CODE) st] [])
  \/ (is_empty (trim (userCode st)) = false /\
      (exists t, snd call = inl t) /\
      committed (handleSubmit backend engine_message st) = [pending; failed])
  \/ (is_empty (trim (userCode st)) = false /\
      exists members,
        snd call = inr (VObject members) /\
        (field members "language" = VString (u16 "tsx") \/
         field members "language" = VString (u16 "html")) /\
        committed (handleSubmit backend engine_message st)
        = [pending; stored members]).
Proof.
  destruct (is_empty (trim (userCode st))) eqn:E.
  - left. split; [reflexivity|]. now apply handleSubmit_guarded.
  - right. destruct (handleSubmit_awaits backend engine_message st E) as [_ Hr].
    fold call in Hr. fold pending in Hr. rewrite Hr. cbn [committed].
    destruct (snd call) as [t|v] eqn:Hc.
    + left. split; [reflexivity|]. split; [now exists t|].
      rewrite (call_throws_FAILED _ _ _ _ _ Hc). reflexivity.
    + right. split; [reflexivity|].
      destruct (call_returns_object _ _ _ _ _ Hc)
        as (text & members & _ & _ & -> & Hl).
      exists members. split; [reflexivity|]. split.
      * unfold field. destruct Hl as [-> | ->]; auto.
      * reflexivity.
Qed.

End MoreHandlerFacts.

(** A call of [handleSubmit] never writes the three inputs: in every state
    it commits, the source code and the two instructions are those of the
    state it started from. *)
Theorem handleSubmit_keeps_the_inputs
    (backend : jsstring -> reply) (engine_message : engine_error -> jsstring)
    (st : State) :
  Forall (fun s => userCode s = userCode st /\
                   refactorPrompt s = refactorPrompt st /\
                   stylePrompt s = stylePrompt st)
         (committed (handleSubmit backend engine_message st)).
Proof.
  destruct (handleSubmit_cases backend engine_message st)
    as [[_ ->] | [(_ & _ & ->) | (_ & members & _ & _ & ->)]];
    repeat (apply Forall_cons || apply Forall_nil); repeat split.
Qed.

(** The only messages [handleSubmit] ever stores are the validation message
    and the client's general failure message; in particular the fallback
    "An unexpected error occurred." and the engine's own error texts are
    never shown. *)
Theorem handleSubmit_stores_only_two_messages
    (backend : jsstring -> reply) (engine_message : engine_error -> jsstring)
    (st : State) :
  Forall (fun s => error s = None \/
                   error s = Some EMPTY_CODE \/
                   error s = Some FAILED)
         (committed (handleSubmit backend engine_message st))
  /\ Forall (fun s => error s <> Some UNEXPECTED)
            (committed (handleSubmit backend engine_message st)).
Proof.
  destruct (handleSubmit_cases backend engine_message st)
    as [[_ ->] | [(_ & _ & ->) | (_ & members & _ & _ & ->)]];
    split; repeat (apply Forall_cons || apply Forall_nil); cbn;
    try discriminate; auto.
Qed.

(** If the form's language is 'tsx' or 'html', it is so in every state that
    [handleSubmit] commits, whatever the backend replies; it holds
    initially, so the preview is never asked for any other language. *)
Theorem handleSubmit_keeps_the_language_valid
    (backend : jsstring -> reply) (engine_message : engine_error -> jsstring)
    (st : State) :
  language st = VString (u16 "tsx") \/ language st = VString (u16 "html") ->
  Forall (fun s => language s = VString (u16 "tsx") \/
                   language s = VString (u16 "html"))
         (committed (handleSubmit backend engine_message st))
  /\ language initial = VString (u16 "tsx").
Proof.
  intros H. split; [|reflexivity].
  destruct (handleSubmit_cases backend engine_message st)
    as [[_ ->] | [(_ & _ & ->) | (_ & members & _ & Hl & ->)]];
    repeat (apply Forall_cons || apply Forall_nil); cbn; assumption.
Qed.

Lemma handleSubmit_keeps_the_language_valid_witness :
  Forall (fun s => language s = VString (u16 "tsx") \/
                   language s = VString (u16 "html"))
         (committed (handleSubmit (replies (reply_text "html" "<p>ok</p>"))
                                  engine_text (typed "<p>hi</p>")))
  /\ language initial = VString (u16 "tsx").
Proof.
  exact (handleSubmit_keeps_the_language_valid
           (replies (reply_text "html" "<p>ok</p>")) engine_text
           (typed "<p>hi</p>") (or_introl eq_refl)).
Defined.

(** A submit that the client fails discards the previous result: the
    rewritten code, the explanation and the dependencies stay reset, only
    the language is left, and every tab shows the error panel with the
    general failure message. *)
Theorem failed_submit_discards_the_previous_result
    (backend : jsstring -> reply) (engine_message : engine_error -> jsstring)
    (st : State) (t : thrown) :
  is_empty (trim (userCode st)) = false ->
  snd (getUIImprovementFromCode backend
         (userCode st) (refactorPrompt st) (stylePrompt st)) = inl t ->
  let st' := final st (handleSubmit backend engine_message st) in
  improvedCode st' = VString [] /\
  explanation st' = VString [] /\
  dependencies st' = VArray [] /\
  language st' = language st /\
  isLoading st' = false /\
  (forall theme tab, output st' theme tab = ErrorPanel FAILED).
Proof.
  intros Hcode Ht st'. subst st'. unfold final.
  destruct (handleSubmit_cases backend engine_message st)
    as [[E _] | [(_ & _ & ->) | (_ & members & Hs & _ & _)]];
    [congruence | | congruence].
  repeat split.
Qed.

Lemma failed_submit_discards_the_previous_result_witness :
  let st := after_tsx_result in
  let st' := final st (handleSubmit (rejects "offline") engine_text st) in
  truthy (improvedCode st) = true /\
  improvedCode st' = VString [] /\
  explanation st' = VString [] /\
  dependencies st' = VArray [] /\
  language st' = language st /\
  isLoading st' = false /\
  (forall theme tab, output st' theme tab = ErrorPanel FAILED).
Proof.
  split; [reflexivity|].
  exact (failed_submit_discards_the_previous_result
           (rejects "offline") engine_text after_tsx_result
           (Error FAILED) eq_refl ltac:(vm_compute; reflexivity)).
Defined.

(** A submit stopped by the guard leaves a previous result in the form but
    out of sight: the four result cells are untouched, yet every tab shows
    the validation message and the tab bar is gone. *)
Theorem guarded_submit_hides_the_previous_result
    (backend : jsstring -> reply) (engine_message : engine_error -> jsstring)
    (st : State) :
  is_empty (trim (userCode st)) = true ->
  isLoading st = false ->
  let st' := final st (handleSubmit backend engine_message st) in
  improvedCode st' = improvedCode st /\
  explanation st' = explanation st /\
  language st' = language st /\
  dependencies st' = dependencies st /\
  (forall theme tab, output st' theme tab = ErrorPanel EMPTY_CODE) /\
  tab_bar_shown (improvedCode st') (isLoading st') (error st') = false.
Proof.
  intros Hblank Hidle st'. subst st'.
  rewrite (handleSubmit_guarded backend engine_message st Hblank).
  unfold final, output, renderContent, tab_bar_shown.
  cbn [committed last]. unfold setError.
  cbn [improvedCode explanation language dependencies isLoading error].
  rewrite Hidle. repeat split. cbn. now rewrite andb_false_r.
Qed.

Lemma guarded_submit_hides_the_previous_result_witness :
  let st := setUserCode [32; LF] after_tsx_result in
  let st' := final st (handleSubmit (replies (reply_text "html" "<p>ok</p>"))
                                    engine_text st) in
  truthy (improvedCode st) = true /\
  improvedCode st' = improvedCode st /\
  explanation st' = explanation st /\
  language st' = language st /\
  dependencies st' = dependencies st /\
  (forall theme tab, output st' theme tab = ErrorPanel EMPTY_CODE) /\
  tab_bar_shown (improvedCode st') (isLoading st') (error st') = false.
Proof.
  split; [reflexivity|].
  exact (guarded_submit_hides_the_previous_result
           (replies (reply_text "html" "<p>ok</p>")) engine_text
           (setUserCode [32; LF] after_tsx_result) eq_refl eq_refl).
Defined.

Lemma accepted_reply_final_state
    (backend : jsstring -> reply) (engine_message : engine_error -> jsstring)
    (st : State) (text : jsstring) (members : list (jsstring * jsval)) :
  is_empty (trim (userCode st)) = false ->
  backend (fullPrompt (userCode st) (refactorPrompt st) (stylePrompt st))
  = Resolves text ->
  JSON_parse (trim text) = Some (VObject members) ->
  lookup (u16 "language") members = Some (VString (u16 "tsx")) \/
  lookup (u16 "language") members = Some (VString (u16 "html")) ->
  let field key :=
    match lookup key members with Some w => w | None => VUndefined end in
  handleSubmit backend engine_message st
  = mkRun
      [setDependencies (VArray [])
         (setExplanation (VString [])
         (setImprovedCode (VString [])
         (setError None
         (setIsLoading true st))));
       mkState (userCode st) (refactorPrompt st) (stylePrompt st)
               (field (u16 "improvedCode")) (field (u16 "explanation"))
               (field (u16 "language")) (field (u16 "dependencies"))
               false None]
      [GenerateContent MODEL
         (fullPrompt (userCode st) (refactorPrompt st) (stylePrompt st))].
Proof.
  intros Hcode Hb Hp Hl field.
  destruct (handleSubmit_awaits backend engine_message st Hcode) as [_ ->].
  rewrite (call_accepted backend _ _ _ text members Hb Hp)
    by (unfold language_of; destruct Hl as [-> | ->]; reflexivity).
  reflexivity.
Qed.



(** The other three fields are not checked: a reply object with a valid
    [language] but without (or with a falsy) [improvedCode] is accepted by
    the client without any error being logged or stored, and the output
    pane then shows "Ready to Refactor" on every tab, as if nothing had
    been submitted. *)
Theorem reply_without_code_looks_idle
    (backend : jsstring -> reply) (engine_message : engine_error -> jsstring)
    (st : State) (text : jsstring) (members : list (jsstring * jsval)) :
  is_empty (trim (userCode st)) = false ->
  backend (fullPrompt (userCode st) (refactorPrompt st) (stylePrompt st))
  = Resolves text ->
  JSON_parse (trim text) = Some (VObject members) ->
  lookup (u16 "language") members = Some (VString (u16 "tsx")) \/
  lookup (u16 "language") members = Some (VString (u16 "html")) ->
  truthy (match lookup (u16 "improvedCode") members with
          | Some w => w
          | None => VUndefined
          end) = false ->
  let run := handleSubmit backend engine_message st in
  let st' := final st run in
  (exists result,
     snd (getUIImprovementFromCode backend
            (userCode st) (refactorPrompt st) (stylePrompt st)) = inr result) /\
  filter (fun e => negb (is_network_call e)) (events run) = [] /\
  error st' = None /\
  requestState st' = Idle /\
  (forall theme tab, output st' theme tab = ReadyToRefactor) /\
  tab_bar_shown (improvedCode st') (isLoading st') (error st') = false.
Proof.
  intros Hcode Hb Hp Hl Hfalsy run st'. subst run st'.
  split.
  { exists (VObject members).
    rewrite (call_accepted backend _ _ _ text members Hb Hp)
      by (unfold language_of; destruct Hl as [-> | ->]; reflexivity).
    reflexivity. }
  rewrite (accepted_reply_final_state backend engine_message st text members
             Hcode Hb Hp Hl).
  unfold final, requestState, output, renderContent, tab_bar_shown.
  cbn [committed events last improvedCode explanation language dependencies
       error isLoading error_set filter is_network_call negb].
  rewrite Hfalsy. repeat split.
Qed.

Lemma reply_without_code_looks_idle_witness :
  let st := typed "<p>hi</p>" in
  let run := handleSubmit (replies (bare_reply "html")) engine_text st in
  let st' := final st run in
  (exists result,
     snd (getUIImprovementFromCode (replies (bare_reply "html"))
            (userCode st) (refactorPrompt st) (stylePrompt st)) = inr result) /\
  filter (fun e => negb (is_network_call e)) (events run) = [] /\
  error st' = None /\
  requestState st' = Idle /\
  (forall theme tab, output st' theme tab = ReadyToRefactor) /\
  tab_bar_shown (improvedCode st') (isLoading st') (error st') = false.
Proof.
  exact (reply_without_code_looks_idle
           (replies (bare_reply "html")) engine_text (typed "<p>hi</p>")
           (bare_reply "html") [(u16 "language", VString (u16 "html"))]
           eq_refl eq_refl ltac:(vm_compute; reflexivity)
           ltac:(right; vm_compute; reflexivity) eq_refl).
Defined.

(** A click on the button runs into the validation message exactly when the
    source code is not empty but blank and nothing is loading: with empty
    source code the button is disabled, so the guard inside [handleSubmit]
    is reached only by white space. *)
Theorem click_meets_the_guard_only_for_blank_code
    (backend : jsstring -> reply) (engine_message : engine_error -> jsstring)
    (st : State) :
  (exists run,
     click backend engine_message st = Some run /\
     committed run = [setError (Some EMPTY_CODE) st])
  <->
  (userCode st <> [] /\ trim (userCode st) = [] /\ isLoading st = false).
Proof.
  unfold click, submit_disabled. split.
  - intros (run & Hclick & Hrun).
    destruct (is_empty (userCode st)) eqn:He; [discriminate|].
    destruct (isLoading st) eqn:Hl; [discriminate|].
    cbn in Hclick. injection Hclick as <-.
    split; [now apply is_empty_false|]. split; [|reflexivity].
    destruct (handleSubmit_cases backend engine_message st)
      as [[E _] | [(_ & _ & Hc) | (_ & members & _ & _ & Hc)]];
      [now apply is_empty_true | |]; rewrite Hc in Hrun; discriminate.
  - intros (Hne & Ht & Hl).
    apply is_empty_false in Hne. rewrite Hne, Hl. cbn.
    eexists. split; [reflexivity|].
    rewrite handleSubmit_guarded; [reflexivity | now rewrite Ht].
Qed.

(** Single flight is the button's doing alone: while a request is pending a
    click runs nothing, but [handleSubmit] itself has no such test and,
    called on a loading form with non-blank code, sends another request. *)
Theorem single_flight_is_enforced_by_the_button_only
    (backend : jsstring -> reply) (engine_message : engine_error -> jsstring)
    (st : State) :
  isLoading st = true ->
  is_empty (trim (userCode st)) = false ->
  click backend engine_message st = None /\
  network_calls (handleSubmit backend engine_message st) = 1%nat.
Proof.
  intros Hl Hcode. split.
  - unfold click, submit_disabled. rewrite Hl. now rewrite orb_true_r.
  - destruct (handleSubmit_awaits backend engine_message st Hcode) as [_ ->].
    unfold network_calls. cbn [events]. now rewrite call_one_request.
Qed.

Lemma single_flight_is_enforced_by_the_button_only_witness :
  let st := setIsLoading true (typed "<p>hi</p>") in
  click (replies (reply_text "html" "<p>ok</p>")) engine_text st = None /\
  network_calls
    (handleSubmit (replies (reply_text "html" "<p>ok</p>")) engine_text st)
  = 1%nat.
Proof.
  exact (single_flight_is_enforced_by_the_button_only
           (replies (reply_text "html" "<p>ok</p>")) engine_text
           (setIsLoading true (typed "<p>hi</p>")) eq_refl eq_refl).
Defined.

(** ** The output pane *)

(** The tab bar goes with the content of the active tab.  When
    [improvedCode && !error && !isLoading] holds, the pane reads
    [dependencies.length] for the bar: with [dependencies] undefined or
    null rendering throws; otherwise the bar is rendered above the content
    of the active tab, and for an array its indicator is on exactly when
    the array is not empty.  When the condition fails, no bar is rendered,
    [dependencies] is not read, and the content is the skeleton, the error
    panel or the "Ready to Refactor" notice. *)
Theorem tab_bar_goes_with_tab_content
    (coerced_gt_zero : jsval -> bool)
    (improvedCode explanation language dependencies : jsval)
    (isLoading : bool) (error : option jsstring) (theme : Theme) (tab : Tab) :
  let element :=
    Pane.render coerced_gt_zero improvedCode explanation language
                dependencies isLoading error theme tab in
  let tab_content :=
    match tab with
    | TabPreview => LivePreview improvedCode language theme
    | TabCode => CodeBlock improvedCode language theme
    | TabExplanation => MarkdownRenderer explanation
    | TabDependencies => Output.DependenciesView dependencies
    end in
  if tab_bar_shown improvedCode isLoading error then
    match dependencies with
    | VUndefined | VNull =>
        element = inl (Raised (NullPropertyRead (u16 "length")))
    | VArray items =>
        element
        = inr (Pane.mkView (Some (negb (Nat.eqb (List.length items) 0)))
                           tab_content)
    | _ => exists dot, element = inr (Pane.mkView (Some dot) tab_content)
    end
  else
    exists c,
      element = inr (Pane.mkView None c) /\
      (c = LoadingSkeleton \/
       (exists message, c = ErrorPanel message) \/
       c = ReadyToRefactor).
Proof.
  unfold Pane.render, tab_bar_shown, renderContent.
  destruct isLoading.
  { rewrite andb_false_r. eexists. split; [reflexivity | now left]. }
  destruct (error_set error).
  { rewrite andb_false_r. cbn. eexists. split; [reflexivity|].
    right. left. eauto. }
  destruct (truthy improvedCode); cbn.
  - destruct dependencies; cbn; eauto.
  - eexists. split; [reflexivity | now right; right].
Qed.

(** ** The dependencies panel *)

Section DependenciesFacts.

Lemma split_lines_single (d : jsstring) :
  ~ In LF d -> Dependencies.split_lines d = [d].
Proof.
  induction d as [|c d IH]; intros H; simpl; [reflexivity|].
  destruct (c =? LF) eqn:E.
  - apply N.eqb_eq in E. subst c. exfalso. apply H. now left.
  - rewrite IH; [reflexivity|]. intros Hin. apply H. now right.
Qed.

Lemma split_lines_cons (d rest : jsstring) :
  ~ In LF d ->
  Dependencies.split_lines (d ++ LF :: rest)
  = d :: Dependencies.split_lines rest.
Proof.
  induction d as [|c d IH]; intros H; simpl; [reflexivity|].
  destruct (c =? LF) eqn:E.
  - apply N.eqb_eq in E. subst c. exfalso. apply H. now left.
  - rewrite IH; [reflexivity|]. intros Hin. apply H. now right.
Qed.

Lemma split_lines_of_lines (deps : list jsstring) :
  deps <> [] ->
  Forall (fun d => ~ In LF d) deps ->
  Dependencies.split_lines (lines deps) = deps.
Proof.
  induction deps as [|d deps IH]; intros Hne Hall; [congruence|].
  inversion Hall as [|? ? Hd Hrest]; subst.
  destruct deps as [|d' deps'].
  - simpl. now apply split_lines_single.
  - rewrite lines_cons, split_lines_cons by assumption.
    rewrite IH; [reflexivity | discriminate | assumption].
Qed.

End DependenciesFacts.

(** For a non-empty list of install commands free of line feeds, the panel
    shows the commands one per line: the lines of the displayed text are
    the commands, in order, and the copy button puts exactly the displayed
    text on the clipboard and raises the [copied] flag. *)
Theorem dependency_commands_one_per_line (deps : list jsstring) :
  deps <> [] ->
  Forall (fun d => ~ In LF d) deps ->
  exists text,
    Dependencies.DependenciesView (Some deps) = Dependencies.Commands text /\
    Dependencies.split_lines text = deps /\
    Dependencies.clipboard (Dependencies.handleCopy deps) = text /\
    Dependencies.copied (Dependencies.handleCopy deps) = true /\
    Dependencies.reset_after_ms (Dependencies.handleCopy deps) = 2000.
Proof.
  intros Hne Hall. exists (lines deps).
  split; [destruct deps; [congruence | reflexivity]|].
  split; [now apply split_lines_of_lines|]. repeat split.
Qed.

Lemma dependency_commands_one_per_line_witness :
  exists text,
    Dependencies.DependenciesView
      (Some [u16 "npm install framer-motion"; u16 "npm install clsx"])
    = Dependencies.Commands text /\
    Dependencies.split_lines text
    = [u16 "npm install framer-motion"; u16 "npm install clsx"] /\
    Dependencies.clipboard
      (Dependencies.handleCopy
         [u16 "npm install framer-motion"; u16 "npm install clsx"]) = text /\
    Dependencies.copied
      (Dependencies.handleCopy
         [u16 "npm install framer-motion"; u16 "npm install clsx"]) = true /\
    Dependencies.reset_after_ms
      (Dependencies.handleCopy
         [u16 "npm install framer-motion"; u16 "npm install clsx"]) = 2000.
Proof.
  apply (dependency_commands_one_per_line
           [u16 "npm install framer-motion"; u16 "npm install clsx"]).
  - discriminate.
  - repeat constructor; vm_compute; intuition discriminate.
Defined.

(** For an array, the indicator dot on the Dependencies tab is shown exactly
    when the panel lists commands, and the empty array is shown like a
    missing one (the notice).  For a missing array the two places differ:
    the panel would show the notice, but the indicator expression reads
    [length] of it and throws. *)
Theorem dependency_indicator_and_panel (deps : list jsstring) :
  Dependencies.hasIndicator (Some deps)
  = inr (match Dependencies.DependenciesView (Some deps) with
         | Dependencies.Commands _ => true
         | Dependencies.Notice _ => false
         end)
  /\ Dependencies.DependenciesView (Some [])
     = Dependencies.DependenciesView None
  /\ Dependencies.DependenciesView None
     = Dependencies.Notice (u16 "No new dependencies required.")
  /\ Dependencies.hasIndicator None
     = inl (Raised (NullPropertyRead (u16 "length"))).
Proof.
  split; [destruct deps; reflexivity|]. repeat split.
Qed.

(** ** The code editor *)

Section EditorFacts.

Lemma placeholder_not_empty : is_empty PLACEHOLDER_CODE = false.
Proof. reflexivity. Qed.

Lemma placeholder_not_blank : is_empty (trim PLACEHOLDER_CODE) = false.
Proof. vm_compute. reflexivity. Qed.

Lemma empty_is_not_placeholder : JsString.eqb [] PLACEHOLDER_CODE = false.
Proof. reflexivity. Qed.

Lemma eqb_false (s t : jsstring) : JsString.eqb s t = false <-> s <> t.
Proof.
  split.
  - intros H E. apply eqb_eq in E. congruence.
  - intros H. destruct (JsString.eqb s t) eqn:E; [|reflexivity].
    apply eqb_eq in E. contradiction.
Qed.

Lemma blank_is_not_placeholder (text : jsstring) :
  Forall (fun c => is_js_whitespace c = true) text ->
  text <> PLACEHOLDER_CODE.
Proof.
  intros H E. pose proof (trim_all_ws _ H) as Ht. rewrite E in Ht.
  pose proof placeholder_not_blank as Hp. rewrite Ht in Hp. discriminate.
Qed.

(** The effect on [value] inside [step] never does anything: what a
    listener reports is what the editor already holds. *)
Lemma step_is_the_listener (s : Session) (g : gesture) :
  step s g
  = mkSession (fst (listener g (editor s)))
              (setCode_all (snd (listener g (editor s))) (form s)).
Proof.
  unfold step.
  assert (Hsync : forall i st,
             doc i = userCode st ->
             (if JsString.eqb (userCode st) (userCode (form s))
              then mkSession i st
              else
                let (i', calls') :=
                  sync_value true PLACEHOLDER_CODE (userCode st) i in
                mkSession i' (setCode_all calls' st))
             = mkSession i st).
  { intros i st Hd.
    destruct (JsString.eqb (userCode st) (userCode (form s)));
      [reflexivity|].
    unfold sync_value. now rewrite Hd, eqb_refl. }
  destruct g as [text| |]; cbn [listener].
  - unfold on_input, dispatch_change, change_listener.
    destruct (JsString.eqb text PLACEHOLDER_CODE); cbn [negb fst snd].
    + cbn [setCode_all fold_left]. now rewrite eqb_refl.
    + now apply Hsync.
  - unfold on_focus. rewrite placeholder_not_empty. unfold focus_listener.
    destruct (JsString.eqb (doc (editor s)) PLACEHOLDER_CODE).
    + unfold setValue, dispatch_change, change_listener.
      rewrite empty_is_not_placeholder. cbn [negb fst snd].
      now apply Hsync.
    + cbn [fst snd setCode_all fold_left]. now rewrite eqb_refl.
  - unfold on_blur. rewrite placeholder_not_empty. unfold blur_listener.
    destruct (is_empty (trim (doc (editor s)))).
    + unfold setValue, dispatch_change, change_listener.
      rewrite eqb_refl. cbn [negb fst snd setCode_all fold_left].
      now rewrite eqb_refl.
    + cbn [fst snd setCode_all fold_left]. now rewrite eqb_refl.
Qed.

Lemma step_keeps_in_step (s : Session) (g : gesture) :
  in_step s -> in_step (step s g).
Proof.
  intros [Hcode Hdoc]. rewrite step_is_the_listener.
  destruct g as [text| |]; cbn [listener].
  - unfold on_input, dispatch_change, change_listener.
    destruct (JsString.eqb text PLACEHOLDER_CODE) eqn:E; cbn [negb fst snd].
    + apply eqb_eq in E. subst text. split; [exact Hcode | now left].
    + apply eqb_false in E. split; [exact E | now right].
  - unfold on_focus. rewrite placeholder_not_empty. unfold focus_listener.
    destruct (JsString.eqb (doc (editor s)) PLACEHOLDER_CODE).
    + unfold setValue, dispatch_change, change_listener.
      rewrite empty_is_not_placeholder. cbn [negb fst snd].
      split; [discriminate | now right].
    + split; assumption.
  - unfold on_blur. rewrite placeholder_not_empty. unfold blur_listener.
    destruct (is_empty (trim (doc (editor s)))).
    + unfold setValue, dispatch_change, change_listener.
      rewrite eqb_refl. cbn [negb fst snd].
      split; [exact Hcode | now left].
    + split; assumption.
Qed.

End EditorFacts.

(** Through any sequence of typing, focusing and leaving the editor, the
    code held by the form is never the placeholder example, and it is
    exactly what the editor shows unless the editor shows the placeholder. *)
Theorem editor_and_form_stay_in_step (gs : list gesture) :
  let s := play gs in
  userCode (form s) <> PLACEHOLDER_CODE /\
  (doc (editor s) = PLACEHOLDER_CODE \/ userCode (form s) = doc (editor s)).
Proof.
  assert (H : forall s, in_step s -> in_step (fold_left step gs s)).
  { induction gs as [|g gs IH]; intros s Hs; [exact Hs|].
    cbn [fold_left]. apply IH. now apply step_keeps_in_step. }
  apply (H mounted). split; [discriminate | now left].
Qed.

(** What the editor reports to the form is never written back into the
    editor: after every gesture the editor is as its listener left it and
    the form holds the reported values, none of which is the placeholder. *)
Theorem reported_edit_never_bounces_back (s : Session) (g : gesture) :
  editor (step s g) = fst (listener g (editor s)) /\
  form (step s g) = setCode_all (snd (listener g (editor s))) (form s) /\
  Forall (fun v => v <> PLACEHOLDER_CODE) (snd (listener g (editor s))).
Proof.
  rewrite step_is_the_listener. split; [reflexivity|]. split; [reflexivity|].
  destruct g as [text| |]; cbn [listener].
  - unfold on_input, dispatch_change, change_listener.
    destruct (JsString.eqb text PLACEHOLDER_CODE) eqn:E; cbn [negb snd].
    + constructor.
    + apply eqb_false in E. now repeat constructor.
  - unfold on_focus. rewrite placeholder_not_empty. unfold focus_listener.
    destruct (JsString.eqb (doc (editor s)) PLACEHOLDER_CODE).
    + unfold setValue, dispatch_change, change_listener.
      rewrite empty_is_not_placeholder. cbn [negb snd].
      repeat constructor. discriminate.
    + constructor.
  - unfold on_blur. rewrite placeholder_not_empty. unfold blur_listener.
    destruct (is_empty (trim (doc (editor s)))).
    + unfold setValue, dispatch_change, change_listener.
      rewrite eqb_refl. constructor.
    + constructor.
Qed.

(** Blank text typed into the editor stays in the form when the editor is
    left: the editor goes back to showing the placeholder, dimmed, and
    reports nothing, so the form still holds the blank text, the button is
    enabled, and a click ends in the validation message. *)
Theorem blank_input_outlives_blur
    (backend : jsstring -> reply) (engine_message : engine_error -> jsstring)
    (text : jsstring) :
  text <> [] ->
  Forall (fun c => is_js_whitespace c = true) text ->
  let s := play [Focus; Input text; Blur] in
  doc (editor s) = PLACEHOLDER_CODE /\
  opacity (editor s) = Some (u16 "0.6") /\
  userCode (form s) = text /\
  submit_disabled (form s) = false /\
  click backend engine_message (form s)
  = Some (mkRun [setError (Some EMPTY_CODE) (form s)] []).
Proof.
  intros Hne Hws s.
  assert (Hneq : JsString.eqb text PLACEHOLDER_CODE = false)
    by now apply eqb_false, blank_is_not_placeholder.
  assert (Hs : s = mkSession
                     (mkInstance PLACEHOLDER_CODE (Some (u16 "0.6")) false)
                     (setUserCode text initial)).
  { subst s. unfold play. cbn [fold_left].
    assert (H1 : step mounted Focus
                 = mkSession (mkInstance [] (Some (u16 "1")) false) initial)
      by (vm_compute; reflexivity).
    rewrite H1, !step_is_the_listener. cbn [listener editor form].
    unfold on_input, dispatch_change, change_listener. rewrite Hneq.
    cbn [negb fst snd]. unfold on_blur. rewrite placeholder_not_empty.
    unfold blur_listener. cbn [with_doc doc].
    rewrite (trim_all_ws _ Hws). cbn [is_empty].
    unfold setValue, dispatch_change, change_listener. rewrite eqb_refl.
    reflexivity. }
  rewrite Hs. cbn [editor form doc opacity].
  assert (Hd : submit_disabled (setUserCode text initial) = false).
  { unfold submit_disabled. cbn. apply is_empty_false in Hne.
    now rewrite Hne. }
  repeat split; try exact Hd.
  unfold click. rewrite Hd. f_equal.
  apply handleSubmit_guarded. unfold setUserCode. cbn [userCode].
  now rewrite (trim_all_ws _ Hws).
Qed.

Lemma blank_input_outlives_blur_witness :
  let s := play [Focus; Input [32; 32; LF]; Blur] in
  doc (editor s) = PLACEHOLDER_CODE /\
  opacity (editor s) = Some (u16 "0.6") /\
  userCode (form s) = [32; 32; LF] /\
  submit_disabled (form s) = false /\
  click (replies (reply_text "html" "<p>ok</p>")) engine_text (form s)
  = Some (mkRun [setError (Some EMPTY_CODE) (form s)] []).
Proof.
  apply (blank_input_outlives_blur
           (replies (reply_text "html" "<p>ok</p>")) engine_text [32; 32; LF]).
  - discriminate.
  - repeat constructor.
Defined.

(** Mounting the editor never calls [onChange]: afterwards it shows the
    value or, for an empty value, the placeholder, and its opacity is the
    one the read-only effect sets last ("1", or "0.5" when read-only), so
    the placeholder is not dimmed until the editor is left for the first
    time. *)
Theorem mount_is_silent
    (onChange : bool) (placeholder value : jsstring) (isReadOnly : bool) :
  let mounting := mount onChange placeholder value isReadOnly in
  snd mounting = [] /\
  doc (fst mounting) = or_else value placeholder /\
  readOnly (fst mounting) = isReadOnly /\
  opacity (fst mounting) = Some (u16 (if isReadOnly then "0.5" else "1")).
Proof.
  unfold mount, sync_value, create, or_else.
  destruct value as [|c value]; cbn [is_empty doc].
  - destruct placeholder as [|p placeholder]; cbn; [repeat split|].
    unfold setValue, dispatch_change, change_listener.
    rewrite (eqb_refl (p :: placeholder)). cbn.
    destruct onChange; repeat split.
  - rewrite (eqb_refl (c :: value)). cbn. repeat split.
Qed.
